(** * The poster handler of [src/app.py], embedded and verified

    [app.py] is one AWS Lambda handler: it normalises the invocation
    envelope ([_parse_event]), validates the prompt, calls the Bedrock
    image model, decodes the first image, writes it to S3 and answers with
    a presigned URL ([lambda_handler]).

    The embedding keeps Python's dynamic typing: values are a tagged union
    [pyval], operations that Python lets fail ([.get] on a non-dict,
    [.strip] on a non-string, subscripting) return an [outcome] that may
    be a raised exception, and the calls that leave the process are logged
    in the order the handler makes them. *)

From Stdlib Require Import List String Ascii Bool ZArith NArith Lia.
From Stdlib Require Import Init.Byte DecimalString.
Import ListNotations.

Local Open Scope list_scope.
Set Warnings "-register-all".

(* ------------------------------------------------------------------ *)
(** ** Python values *)

(** A Python [str] is a sequence of Unicode code points; [len] counts
    them. *)
Definition codepoint := N.
Definition pystr := list codepoint.
Definition bytes := list byte.

(** [u "text"] is the Python string with the characters of the literal. *)
Definition u (s : string) : pystr :=
  map N_of_ascii (list_ascii_of_string s).

Fixpoint pystr_eqb (a b : pystr) : bool :=
  match a, b with
  | [], [] => true
  | x :: a', y :: b' => N.eqb x y && pystr_eqb a' b'
  | _, _ => false
  end.

(** A float is only ever tested for truth by the handler: not-a-number,
    an infinity, or a signed [mant * 2^exp]. *)
Inductive pyfloat :=
| FNaN
| FInf (neg : bool)
| FFinite (neg : bool) (mant : N) (exp : Z).

(** The values [json.loads] can produce (and so every JSON-compatible
    envelope): a [dict] keeps its insertion order and has [str] keys. *)
Inductive pyval :=
| PNone
| PBool (b : bool)
| PInt (z : Z)
| PFloat (f : pyfloat)
| PStr (s : pystr)
| PList (l : list pyval)
| PDict (d : list (pystr * pyval)).

Definition pydict := list (pystr * pyval).

(** The exceptions the handler can meet outside a [try]. *)
Inductive exn :=
| AttributeError
| TypeError
| KeyError
| IndexError
| OtherError.

(** The result of evaluating a Python expression. *)
Inductive outcome (A : Type) :=
| Ret (a : A)
| Raise (e : exn).
Arguments Ret {A} a.
Arguments Raise {A} e.

(** ** Python primitives the handler uses *)

(** [bool(v)]. *)
Definition truthy (v : pyval) : bool :=
  match v with
  | PNone => false
  | PBool b => b
  | PInt z => negb (Z.eqb z 0)
  | PFloat (FFinite _ mant _) => negb (N.eqb mant 0)
  | PFloat _ => true
  | PStr s => match s with [] => false | _ => true end
  | PList l => match l with [] => false | _ => true end
  | PDict d => match d with [] => false | _ => true end
  end.

(** [a or b]. *)
Definition py_or (a b : pyval) : pyval := if truthy a then a else b.

Definition is_str (v : pyval) : bool :=
  match v with PStr _ => true | _ => false end.

Definition is_dict (v : pyval) : bool :=
  match v with PDict _ => true | _ => false end.

Definition is_none (v : pyval) : bool :=
  match v with PNone => true | _ => false end.

(** Lookup in a [dict]: keys are unique in a Python dict, the first
    binding is the binding. *)
Fixpoint dict_get (d : pydict) (k : pystr) : option pyval :=
  match d with
  | [] => None
  | (k', v) :: d' => if pystr_eqb k' k then Some v else dict_get d' k
  end.

(** [d.get(k, default)] on a dict. *)
Definition dict_get_default (d : pydict) (k : pystr) (default : pyval)
  : pyval :=
  match dict_get d k with Some x => x | None => default end.

(** [k in d]. *)
Definition dict_mem (d : pydict) (k : pystr) : bool :=
  match dict_get d k with Some _ => true | None => false end.

(** [v.get(k, default)]: only a [dict] has the method. *)
Definition py_get_default (v : pyval) (k : pystr) (default : pyval)
  : outcome pyval :=
  match v with
  | PDict d => Ret (dict_get_default d k default)
  | _ => Raise AttributeError
  end.

(** [v.get(k)]. *)
Definition py_get (v : pyval) (k : pystr) : outcome pyval :=
  py_get_default v k PNone.

(** [v[k]] with a string key. *)
Definition py_getitem (v : pyval) (k : pystr) : outcome pyval :=
  match v with
  | PDict d =>
      match dict_get d k with Some x => Ret x | None => Raise KeyError end
  | _ => Raise TypeError
  end.

(** [v[0]]: the first element of a list, the first character of a string;
    a dict has no key [0] (its keys are strings); nothing else can be
    subscripted. *)
Definition py_index0 (v : pyval) : outcome pyval :=
  match v with
  | PList (x :: _) => Ret x
  | PList [] => Raise IndexError
  | PStr (c :: _) => Ret (PStr [c])
  | PStr [] => Raise IndexError
  | PDict _ => Raise KeyError
  | _ => Raise TypeError
  end.

(** [str.isspace] on one character (CPython's [_PyUnicode_IsWhitespace]). *)
Definition is_space (c : codepoint) : bool :=
  ((9 <=? c) && (c <=? 13) || (28 <=? c) && (c <=? 32)
   || (c =? 133) || (c =? 160) || (c =? 5760)
   || (8192 <=? c) && (c <=? 8202)
   || (c =? 8232) || (c =? 8233) || (c =? 8239) || (c =? 8287)
   || (c =? 12288))%N.

Fixpoint lstrip (s : pystr) : pystr :=
  match s with
  | c :: s' => if is_space c then lstrip s' else s
  | [] => []
  end.

Definition rstrip (s : pystr) : pystr := rev (lstrip (rev s)).

(** [s.strip()] on a string. *)
Definition strip (s : pystr) : pystr := rstrip (lstrip s).

(** [v.strip()]: among JSON values only a [str] has the method. *)
Definition py_strip (v : pyval) : outcome pystr :=
  match v with
  | PStr s => Ret (strip s)
  | _ => Raise AttributeError
  end.

(** [len(s)]. *)
Definition len (s : pystr) : Z := Z.of_nat (List.length s).

(* ------------------------------------------------------------------ *)
(** ** What lies outside the handler *)

(** [json.loads] on a [str]: a value, [json.JSONDecodeError], or another
    exception (a [RecursionError] on deep nesting), which the
    [except json.JSONDecodeError] of [_parse_event] does not catch. *)
Inductive loads_result :=
| Loaded (v : pyval)
| JSONDecodeError
| LoadsRaised (e : exn).

(** What [invoke_model] hands back: [resp["body"].read()] yields the
    payload or fails. *)
Record invoke_response := { read_body : option bytes }.

(** [datetime.datetime.utcnow()]. *)
Record datetime := {
  year : N; month : N; day : N; hour : N; minute : N; second : N
}.

(** The module-level configuration, the library functions ([json],
    [base64], [datetime], [uuid]) and the two boto3 clients.  A result
    [None] (or [false]) is a raised [Exception]; each use site of the
    handler catches it. *)
Record World := {
  OUTPUT_BUCKET : pystr;
  MODEL_ID : pystr;
  KEY_PREFIX : pystr;
  json_dumps : pyval -> pystr;
  json_loads : pystr -> loads_result;
  json_loads_bytes : bytes -> option pyval;
  b64decode : pystr -> option bytes;
  decode_utf8 : bytes -> option pystr;
  utcnow : datetime;
  uuid4 : N;
  invoke_model :
    forall (modelId contentType accept body : pystr), option invoke_response;
  put_object :
    forall (Bucket Key : pystr) (Body : bytes) (ContentType : pystr), bool;
  generate_presigned_url :
    forall (ClientMethod Bucket Key : pystr) (ExpiresIn : Z), option pystr
}.

(** [base64.b64decode(v)]: a [TypeError] unless [v] is a string. *)
Definition py_b64decode (w : World) (v : pyval) : option bytes :=
  match v with
  | PStr s => b64decode w s
  | _ => None
  end.

(** The calls that leave the process. *)
Inductive call :=
| InvokeModel (modelId contentType accept body : pystr)
| PutObject (Bucket Key : pystr) (Body : bytes) (ContentType : pystr)
| GeneratePresignedUrl (ClientMethod Bucket Key : pystr) (ExpiresIn : Z).

(** ** Formatting the storage key *)

(** The [width] low digits of [n] in base [base], most significant first:
    [%0<width>d] and [%0<width>x] for an [n] that fits. *)
Fixpoint fixed_digits (base : N) (chr : N -> codepoint) (width : nat) (n : N)
  : pystr :=
  match width with
  | O => []
  | S width' =>
      fixed_digits base chr width' (n / base)%N ++ [chr (n mod base)%N]
  end.

Definition digit_char (d : N) : codepoint := (48 + d)%N.

Definition hex_char (d : N) : codepoint :=
  if (d <? 10)%N then (48 + d)%N else (87 + d)%N.

(** [t.strftime("%Y%m%d%H%M%S")] for a clock reading with a four-digit
    year: every field at its full width. *)
Definition strftime_YmdHMS (t : datetime) : pystr :=
  fixed_digits 10 digit_char 4 (year t)
  ++ fixed_digits 10 digit_char 2 (month t)
  ++ fixed_digits 10 digit_char 2 (day t)
  ++ fixed_digits 10 digit_char 2 (hour t)
  ++ fixed_digits 10 digit_char 2 (minute t)
  ++ fixed_digits 10 digit_char 2 (second t).

(** [uuid.UUID.hex]: the 128-bit integer as 32 lower-case hex digits. *)
Definition uuid_hex (n : N) : pystr := fixed_digits 16 hex_char 32 n.

(* ------------------------------------------------------------------ *)
(** ** [app.py] *)

(** The handler's answer. *)
Record response := {
  statusCode : Z;
  headers : list (pystr * pystr);
  body : pystr
}.

(** [_resp(status_code, body)]. *)
Definition _resp (w : World) (status_code : Z) (body : pydict) : response :=
  {| statusCode := status_code;
     headers := [(u "Content-Type", u "application/json");
                 (u "Access-Control-Allow-Origin", u "*")];
     body := json_dumps w (PDict body) |}.

(** The dict [{"__parse_error__": msg}]. *)
Definition parse_error (msg : string) : pyval :=
  PDict [(u "__parse_error__", PStr (u msg))].

(** [_parse_event(event)]. *)
Definition _parse_event (w : World) (event : pyval) : outcome pyval :=
  match event with
  | PDict ev =>
      if dict_mem ev (u "body") then
        let body := dict_get_default ev (u "body") PNone in
        let decoded :=
          if truthy (dict_get_default ev (u "isBase64Encoded") PNone)
             && is_str body
          then match py_b64decode w body with
               | Some raw =>
                   match decode_utf8 w raw with
                   | Some s => Some (PStr s)
                   | None => None
                   end
               | None => None
               end
          else Some body in
        match decoded with
        | None => Ret (parse_error "Invalid base64-encoded body")
        | Some body =>
            match body with
            | PStr s =>
                match json_loads w s with
                | Loaded v => Ret v
                | JSONDecodeError =>
                    Ret (parse_error "Invalid JSON in request body")
                | LoadsRaised e => Raise e
                end
            | PDict _ => Ret body
            | _ => Ret (parse_error "Unsupported body format")
            end
        end
      else Ret event
  | _ => Ret (PDict [])
  end.

(** *** The handler's effects

    A run of the handler is the list of outbound calls it made, in order,
    and how it ended. *)
Definition M (A : Type) : Type := (list call * outcome A)%type.

Definition ret {A} (a : A) : M A := ([], Ret a).

Definition bind {A B} (m : M A) (k : A -> M B) : M B :=
  match m with
  | (t, Ret a) => (t ++ fst (k a), snd (k a))
  | (t, Raise e) => (t, Raise e)
  end.

(** Evaluate an expression that may raise. *)
Definition eval {A} (o : outcome A) : M A := ([], o).

(** Make an outbound call. *)
Definition perform (c : call) : M unit := ([c], Ret tt).

Notation "x <- m ;; k" := (bind m (fun x => k))
  (at level 61, m at next level, right associativity).

(** The calls a run made, and its end. *)
Definition calls {A} (m : M A) : list call := fst m.
Definition result {A} (m : M A) : outcome A := snd m.

(** The request body sent to the model:
    [json.dumps({"prompt": prompt, "output_format": "png"})]. *)
Definition model_request (w : World) (prompt : pystr) : pystr :=
  json_dumps w
    (PDict [(u "prompt", PStr prompt); (u "output_format", PStr (u "png"))]).

(** [f"{KEY_PREFIX}poster_{ts}_{rid}.png"]. *)
Definition object_key (w : World) : pystr :=
  let ts := strftime_YmdHMS (utcnow w) in
  let rid := firstn 10 (uuid_hex (uuid4 w)) in
  KEY_PREFIX w ++ u "poster_" ++ ts ++ u "_" ++ rid ++ u ".png".

(** [{"error": msg}]. *)
Definition error_body (msg : string) : pydict :=
  [(u "error", PStr (u msg))].

(** [finish_reasons and finish_reasons[0] is not None]. *)
Definition finish_reported (finish_reasons : pyval) : outcome bool :=
  if truthy finish_reasons then
    match py_index0 finish_reasons with
    | Ret first => Ret (negb (is_none first))
    | Raise e => Raise e
    end
  else Ret false.

(** [base64.b64decode(images[0])] under its [try]. *)
Definition decode_first_image (w : World) (images : pyval) : option bytes :=
  match py_index0 images with
  | Ret first => py_b64decode w first
  | Raise _ => None
  end.

(** [json.loads(resp["body"].read())] under its [try]. *)
Definition read_response (w : World) (resp : invoke_response) : option pyval :=
  match read_body resp with
  | Some raw => json_loads_bytes w raw
  | None => None
  end.

(** [lambda_handler(event, context)]; [context] is not used. *)
Definition lambda_handler (w : World) (event : pyval) : M response :=
  payload <- eval (_parse_event w event) ;;
  marker <- eval (py_get payload (u "__parse_error__")) ;;
  if truthy marker then
    msg <- eval (py_getitem payload (u "__parse_error__")) ;;
    ret (_resp w 400 [(u "error", msg)])
  else
  given <- eval (py_get payload (u "prompt")) ;;
  prompt <- eval (py_strip (py_or given (PStr []))) ;;
  if negb (truthy (PStr prompt)) then
    ret (_resp w 400 (error_body "Missing 'prompt'"))
  else
  if (len prompt >? 800)%Z then
    ret (_resp w 400 (error_body "Prompt too long (max 800 chars)"))
  else
  _ <- perform (InvokeModel (MODEL_ID w) (u "application/json")
                  (u "application/json") (model_request w prompt)) ;;
  match invoke_model w (MODEL_ID w) (u "application/json")
          (u "application/json") (model_request w prompt) with
  | None => ret (_resp w 502 (error_body "Bedrock invoke failed"))
  | Some resp =>
  match read_response w resp with
  | None => ret (_resp w 502 (error_body "Invalid Bedrock response"))
  | Some data =>
  finish_reasons <-
    eval (py_get_default data (u "finish_reasons") (PList [])) ;;
  filtered <- eval (finish_reported finish_reasons) ;;
  if (filtered : bool) then
    ret (_resp w 400 [(u "error", PStr (u "Filtered/failed"));
                      (u "finish_reasons", finish_reasons)])
  else
  found <- eval (py_get data (u "images")) ;;
  let images := py_or found (PList []) in
  if negb (truthy images) then
    ret (_resp w 502 (error_body "No image returned from model"))
  else
  match decode_first_image w images with
  | None => ret (_resp w 502 (error_body "Image decode failed"))
  | Some img_bytes =>
  let key := object_key w in
  _ <- perform (PutObject (OUTPUT_BUCKET w) key img_bytes (u "image/png")) ;;
  if negb (put_object w (OUTPUT_BUCKET w) key img_bytes (u "image/png")) then
    ret (_resp w 502 (error_body "S3 upload failed"))
  else
  _ <- perform (GeneratePresignedUrl (u "get_object") (OUTPUT_BUCKET w) key
                  3600) ;;
  match generate_presigned_url w (u "get_object") (OUTPUT_BUCKET w) key 3600
  with
  | None => ret (_resp w 502 (error_body "Failed to generate presigned URL"))
  | Some url =>
  seeds <- eval (py_get data (u "seeds")) ;;
  seed <- eval (py_index0 (py_or seeds (PList [PNone]))) ;;
  ret (_resp w 200 [(u "bucket", PStr (OUTPUT_BUCKET w));
                    (u "key", PStr key);
                    (u "url", PStr url);
                    (u "seed", seed);
                    (u "modelId", PStr (MODEL_ID w))])
  end end end end.

(* ------------------------------------------------------------------ *)
(** ** A test double

    A scripted stand-in for the world, of the kind the handler's tests
    would inject: the library functions answer the handful of inputs
    listed here the way CPython does and fail on every other input, the
    model answers two prompts, and the storage client can be switched
    off. *)
Module Double.

Definition ascii_bytes (s : string) : bytes := list_byte_of_string s.

(** [s.encode("ascii")]. *)
Definition encode_ascii (s : pystr) : bytes :=
  map (fun c => match Byte.of_N c with Some b => b | None => x3f end) s.

Fixpoint lookup {A} (table : list (pystr * A)) (k : pystr) : option A :=
  match table with
  | [] => None
  | (k', a) :: table' => if pystr_eqb k' k then Some a else lookup table' k
  end.

(** [json.dumps] of a string (with [ensure_ascii]), for printable ASCII
    characters; the double writes [?] for any other. *)
Definition dumps_str (s : pystr) : pystr :=
  let quote : codepoint := 34%N in
  let backslash : codepoint := 92%N in
  [quote] ++
  flat_map (fun c : codepoint =>
              if (c =? quote)%N then [backslash; quote] else
              if (c =? backslash)%N then [backslash; backslash] else
              if ((32 <=? c) && (c <=? 126))%N then [c] else u "?") s
  ++ [quote].

Definition dumps_int (z : Z) : pystr :=
  match z with
  | Zneg p => u "-" ++ u (NilZero.string_of_uint (N.to_uint (Npos p)))
  | _ => u (NilZero.string_of_uint (N.to_uint (Z.to_N z)))
  end.

(** [json.dumps] for values without floats ([0.0] stands for a float). *)
Fixpoint dumps (v : pyval) : pystr :=
  match v with
  | PNone => u "null"
  | PBool true => u "true"
  | PBool false => u "false"
  | PInt z => dumps_int z
  | PFloat _ => u "0.0"
  | PStr s => dumps_str s
  | PList l =>
      u "[" ++
      (fix items (l : list pyval) : pystr :=
         match l with
         | [] => []
         | x :: [] => dumps x
         | x :: more => dumps x ++ u ", " ++ items more
         end) l
      ++ u "]"
  | PDict d =>
      u "{" ++
      (fix items (d : list (pystr * pyval)) : pystr :=
         match d with
         | [] => []
         | (k, x) :: [] => dumps_str k ++ u ": " ++ dumps x
         | (k, x) :: more =>
             dumps_str k ++ u ": " ++ dumps x ++ u ", " ++ items more
         end) d
      ++ u "}"
  end.

Definition fox : pyval := PDict [(u "prompt", PStr (u "a red fox"))].

(** What the model answers to "a red fox": one image, no finish reason. *)
Definition fox_reply : pydict :=
  [(u "seeds", PList [PInt 42]);
   (u "finish_reasons", PList [PNone]);
   (u "images", PList [PStr (u "aGk=")])].

(** What the model answers to "a knife fight": filtered. *)
Definition filtered_reply : pydict :=
  [(u "finish_reasons", PList [PStr (u "CONTENT_FILTERED")]);
   (u "images", PList [])].

Definition loads (s : pystr) : loads_result :=
  match lookup
          [(dumps fox, fox);
           (u "{}", PDict []);
           (u "[1, 2]", PList [PInt 1; PInt 2]);
           (dumps (PStr (u "a red fox")), PStr (u "a red fox"))] s
  with
  | Some v => Loaded v
  | None => JSONDecodeError
  end.

Definition b64 (s : pystr) : option bytes :=
  lookup
    [(u "e30=", ascii_bytes "{}");
     (u "aGk=", ascii_bytes "hi");
     (u "eyJwcm9tcHQiOiAiYSByZWQgZm94In0=",
      encode_ascii (dumps fox));
     (u "/w==", [xff])] s.

(** [bytes.decode("utf-8")] for ASCII bytes; the double fails on any
    other. *)
Definition utf8 (raw : bytes) : option pystr :=
  if forallb (fun b => (Byte.to_N b <? 128)%N) raw
  then Some (map Byte.to_N raw) else None.

Definition model (modelId contentType accept body : pystr)
  : option invoke_response :=
  lookup
    [(dumps (PDict [(u "prompt", PStr (u "a red fox"));
                    (u "output_format", PStr (u "png"))]),
      {| read_body := Some (ascii_bytes "fox-reply") |});
     (dumps (PDict [(u "prompt", PStr (u "a knife fight"));
                    (u "output_format", PStr (u "png"))]),
      {| read_body := Some (ascii_bytes "filtered-reply") |})] body.

Definition loads_bytes (raw : bytes) : option pyval :=
  match utf8 raw with
  | Some s =>
      lookup [(u "fox-reply", PDict fox_reply);
              (u "filtered-reply", PDict filtered_reply)] s
  | None => None
  end.

Definition world (storage_up : bool) : World :=
  {| OUTPUT_BUCKET := u "poster-bucket";
     MODEL_ID := u "stability.sd3-5-large-v1:0";
     KEY_PREFIX := u "sd35/";
     json_dumps := dumps;
     json_loads := loads;
     json_loads_bytes := loads_bytes;
     b64decode := b64;
     decode_utf8 := utf8;
     utcnow := {| year := 2026; month := 11; day := 4;
                  hour := 9; minute := 30; second := 5 |};
     uuid4 := 0x3f2a9c01d4e84b7a9c3e5f6a7b8c9d0e;
     invoke_model := model;
     put_object := fun _ _ _ _ => storage_up;
     generate_presigned_url := fun _ Bucket Key _ =>
       Some (u "https://" ++ Bucket ++ u ".s3.amazonaws.com/" ++ Key
               ++ u "?X-Amz-Expires=3600") |}.

End Double.

(** A second double, for the failures of the services: the model call
    answers [reply] to every request, every payload parses to [payload],
    and the storage write and the presign succeed as the two flags say.
    The rest is [Double.world]. *)
Module Faulty.

Definition world (reply : option invoke_response) (payload : option pyval)
    (storage_up presign_up : bool) : World :=
  {| OUTPUT_BUCKET := u "poster-bucket";
     MODEL_ID := u "stability.sd3-5-large-v1:0";
     KEY_PREFIX := u "sd35/";
     json_dumps := Double.dumps;
     json_loads := Double.loads;
     json_loads_bytes := fun _ => payload;
     b64decode := Double.b64;
     decode_utf8 := Double.utf8;
     utcnow := {| year := 2026; month := 11; day := 4;
                  hour := 9; minute := 30; second := 5 |};
     uuid4 := 0x3f2a9c01d4e84b7a9c3e5f6a7b8c9d0e;
     invoke_model := fun _ _ _ _ => reply;
     put_object := fun _ _ _ _ => storage_up;
     generate_presigned_url := fun _ Bucket Key _ =>
       if presign_up
       then Some (u "https://" ++ Bucket ++ u ".s3.amazonaws.com/" ++ Key)
       else None |}.

(** A reply whose body can be read. *)
Definition readable : option invoke_response :=
  Some {| read_body := Some (Double.ascii_bytes "payload") |}.

End Faulty.

(** The world [w] at another draw of [uuid.uuid4()]. *)
Definition with_uuid4 (w : World) (n : N) : World :=
  {| OUTPUT_BUCKET := OUTPUT_BUCKET w;
     MODEL_ID := MODEL_ID w;
     KEY_PREFIX := KEY_PREFIX w;
     json_dumps := json_dumps w;
     json_loads := json_loads w;
     json_loads_bytes := json_loads_bytes w;
     b64decode := b64decode w;
     decode_utf8 := decode_utf8 w;
     utcnow := utcnow w;
     uuid4 := n;
     invoke_model := invoke_model w;
     put_object := put_object w;
     generate_presigned_url := generate_presigned_url w |}.

(** The world [w] with another [base64.b64decode]. *)
Definition with_b64decode (w : World) (f : pystr -> option bytes) : World :=
  {| OUTPUT_BUCKET := OUTPUT_BUCKET w;
     MODEL_ID := MODEL_ID w;
     KEY_PREFIX := KEY_PREFIX w;
     json_dumps := json_dumps w;
     json_loads := json_loads w;
     json_loads_bytes := json_loads_bytes w;
     b64decode := f;
     decode_utf8 := decode_utf8 w;
     utcnow := utcnow w;
     uuid4 := uuid4 w;
     invoke_model := invoke_model w;
     put_object := put_object w;
     generate_presigned_url := generate_presigned_url w |}.

(** The world [w] whose presign call returns [url]. *)
Definition with_presigned_url (w : World) (url : option pystr) : World :=
  {| OUTPUT_BUCKET := OUTPUT_BUCKET w;
     MODEL_ID := MODEL_ID w;
     KEY_PREFIX := KEY_PREFIX w;
     json_dumps := json_dumps w;
     json_loads := json_loads w;
     json_loads_bytes := json_loads_bytes w;
     b64decode := b64decode w;
     decode_utf8 := decode_utf8 w;
     utcnow := utcnow w;
     uuid4 := uuid4 w;
     invoke_model := invoke_model w;
     put_object := put_object w;
     generate_presigned_url := fun _ _ _ _ => url |}.

(** [Double.world] with a [base64.b64decode] that also answers two texts
    holding characters outside the base64 alphabet.  CPython's
    [b64decode] drops such characters before it decodes: "!!!" decodes to
    no bytes at all, and [laden] to the JSON text of [Double.fox]. *)
Module Lenient.

Definition laden : pystr := u "!eyJwcm9tcHQi*OiAiYSByZWQg#Zm94In0=".

Definition b64 (s : pystr) : option bytes :=
  match Double.lookup
          [(u "!!!", []);
           (laden, Double.encode_ascii (Double.dumps Double.fox))] s
  with
  | Some raw => Some raw
  | None => Double.b64 s
  end.

Definition world : World := with_b64decode (Double.world true) b64.

End Lenient.

(* ------------------------------------------------------------------ *)
(** ** Vocabulary of the statements *)

(** [event] normalises to the request mapping [d], and [d] carries no
    error marker. *)
Definition normalises_to (w : World) (event : pyval) (d : pydict) : Prop :=
  _parse_event w event = Ret (PDict d)
  /\ truthy (dict_get_default d (u "__parse_error__") PNone) = false.

(** The ['prompt'] of [d] is a string that trims to the non-empty [p] of
    at most 800 characters. *)
Definition valid_prompt (d : pydict) (p : pystr) : Prop :=
  exists given,
    dict_get d (u "prompt") = Some (PStr given)
    /\ strip given = p /\ p <> [] /\ (len p <= 800)%Z.

(** [event] is a request the handler accepts, with prompt [p]. *)
Definition accepted (w : World) (event : pyval) (p : pystr) : Prop :=
  exists d, normalises_to w event d /\ valid_prompt d p.

(** The model call for [p] succeeds and its payload parses to the
    mapping [data]. *)
Definition model_replies (w : World) (p : pystr) (data : pydict) : Prop :=
  exists resp raw,
    invoke_model w (MODEL_ID w) (u "application/json")
      (u "application/json") (model_request w p) = Some resp
    /\ read_body resp = Some raw
    /\ json_loads_bytes w raw = Some (PDict data).

(** The finish reason of [data] is absent or null. *)
Definition no_finish_reason (data : pydict) : Prop :=
  dict_get data (u "finish_reasons") = None
  \/ dict_get data (u "finish_reasons") = Some PNone
  \/ dict_get data (u "finish_reasons") = Some (PList [])
  \/ exists more,
       dict_get data (u "finish_reasons") = Some (PList (PNone :: more)).

(** The first image of [data] is base64 text for [img_bytes]. *)
Definition first_image (w : World) (data : pydict) (img_bytes : bytes)
  : Prop :=
  exists img more,
    dict_get data (u "images") = Some (PList (PStr img :: more))
    /\ b64decode w img = Some img_bytes.

(** [seed] is the first element of the seeds list of [data], [None] when
    the list is absent, null or empty. *)
Definition first_seed (data : pydict) (seed : pyval) : Prop :=
  (dict_get data (u "seeds") = None /\ seed = PNone)
  \/ (dict_get data (u "seeds") = Some PNone /\ seed = PNone)
  \/ (dict_get data (u "seeds") = Some (PList []) /\ seed = PNone)
  \/ exists more, dict_get data (u "seeds") = Some (PList (seed :: more)).

(** The clock readings [utcnow] can return in the years 1000 to 9999,
    where [strftime_YmdHMS] is what [strftime] prints. *)
Definition clock_in_range (t : datetime) : Prop :=
  (1000 <= year t <= 9999 /\ 1 <= month t <= 12 /\ 1 <= day t <= 31
   /\ hour t < 24 /\ minute t < 60 /\ second t < 60)%N.

Definition is_digit (c : codepoint) : bool :=
  ((48 <=? c) && (c <=? 57))%N.

Definition is_hex_digit (c : codepoint) : bool :=
  ((48 <=? c) && (c <=? 57) || (97 <=? c) && (c <=? 102))%N.

Definition is_invoke_model (c : call) : bool :=
  match c with InvokeModel _ _ _ _ => true | _ => false end.

Definition is_put_object (c : call) : bool :=
  match c with PutObject _ _ _ _ => true | _ => false end.

Definition is_presign (c : call) : bool :=
  match c with GeneratePresignedUrl _ _ _ _ => true | _ => false end.

(** The [return {"__parse_error__": ...}] that [_parse_event] reaches on
    [event], if it reaches one: normalisation failed with that message. *)
Definition normalisation_error (w : World) (event : pyval) : option string :=
  match event with
  | PDict ev =>
      if dict_mem ev (u "body") then
        let body := dict_get_default ev (u "body") PNone in
        if truthy (dict_get_default ev (u "isBase64Encoded") PNone)
           && is_str body
        then match py_b64decode w body with
             | Some raw =>
                 match decode_utf8 w raw with
                 | Some s =>
                     match json_loads w s with
                     | JSONDecodeError => Some "Invalid JSON in request body"
                     | _ => None
                     end
                 | None => Some "Invalid base64-encoded body"
                 end
             | None => Some "Invalid base64-encoded body"
             end
        else match body with
             | PStr s =>
                 match json_loads w s with
                 | JSONDecodeError => Some "Invalid JSON in request body"
                 | _ => None
                 end
             | PDict _ => None
             | _ => Some "Unsupported body format"
             end
      else None
  | _ => None
  end%string.

(** *** The shape of a run *)

(** The three outbound calls, with the arguments the handler gives them. *)
Definition invoke_call (w : World) (p : pystr) : call :=
  InvokeModel (MODEL_ID w) (u "application/json") (u "application/json")
    (model_request w p).

Definition put_call (w : World) (img_bytes : bytes) : call :=
  PutObject (OUTPUT_BUCKET w) (object_key w) img_bytes (u "image/png").

Definition presign_call (w : World) : call :=
  GeneratePresignedUrl (u "get_object") (OUTPUT_BUCKET w) (object_key w) 3600.

(** A string without leading or trailing whitespace that is not empty and
    has at most 800 characters. *)
Definition sendable (p : pystr) : Prop :=
  p <> [] /\ (len p <= 800)%Z /\ strip p = p.

(** The exits of [lambda_handler]: the calls made so far and the end of
    the run, grouped by the last call made. *)
Inductive run_shape (w : World) : M response -> Prop :=
| shape_raised_early (e : exn) :
    run_shape w ([], Raise e)
| shape_rejected (body : pydict) :
    run_shape w ([], Ret (_resp w 400 body))
| shape_model_raised (p : pystr) (e : exn) :
    sendable p -> run_shape w ([invoke_call w p], Raise e)
| shape_filtered (p : pystr) (body : pydict) :
    sendable p -> run_shape w ([invoke_call w p], Ret (_resp w 400 body))
| shape_model_failed (p : pystr) (body : pydict) :
    sendable p -> run_shape w ([invoke_call w p], Ret (_resp w 502 body))
| shape_put_failed (p : pystr) (img_bytes : bytes) (body : pydict) :
    sendable p ->
    run_shape w ([invoke_call w p; put_call w img_bytes],
                 Ret (_resp w 502 body))
| shape_presign_failed (p : pystr) (img_bytes : bytes) (body : pydict) :
    sendable p ->
    run_shape w ([invoke_call w p; put_call w img_bytes; presign_call w],
                 Ret (_resp w 502 body))
| shape_seed_raised (p : pystr) (img_bytes : bytes) (e : exn) :
    sendable p ->
    run_shape w ([invoke_call w p; put_call w img_bytes; presign_call w],
                 Raise e)
| shape_success (p : pystr) (img_bytes : bytes) (body : pydict) :
    sendable p ->
    run_shape w ([invoke_call w p; put_call w img_bytes; presign_call w],
                 Ret (_resp w 200 body)).

(** A value the handler can subscript with [[0]] or skip: falsy, a list
    or a string. *)
Definition sequence_or_falsy (v : pyval) : bool :=
  match v with
  | PList _ | PStr _ => true
  | _ => negb (truthy v)
  end.

(** A model payload of the documented shape: a mapping whose
    ['finish_reasons'] and ['seeds'], when present, are lists (or null). *)
Definition reply_well_typed (data : pyval) : Prop :=
  exists d,
    data = PDict d
    /\ sequence_or_falsy (dict_get_default d (u "finish_reasons") (PList []))
       = true
    /\ sequence_or_falsy (dict_get_default d (u "seeds") PNone) = true.

(** *** Base64 text

    What "valid base64" names (RFC 4648): characters of the alphabet,
    then at most two [=] of padding, four characters to the group. *)
Definition base64_char (c : codepoint) : bool :=
  ((65 <=? c) && (c <=? 90) || (97 <=? c) && (c <=? 122)
   || (48 <=? c) && (c <=? 57) || (c =? 43) || (c =? 47))%N.

Fixpoint drop_padding (n : nat) (s : pystr) : pystr :=
  match n, s with
  | S n', c :: s' => if (c =? 61)%N then drop_padding n' s' else s
  | _, _ => s
  end.

Definition valid_base64 (s : pystr) : bool :=
  forallb base64_char (rev (drop_padding 2 (rev s)))
  && (Nat.modulo (List.length s) 4 =? 0)%nat.

(* ------------------------------------------------------------------ *)
(** ** Running the handler *)

Section Runs.

Context {A B : Type}.

Lemma bind_eval_ret (a : A) (k : A -> M B) : bind (eval (Ret a)) k = k a.
Proof. unfold bind, eval. simpl. destruct (k a); reflexivity. Qed.

Lemma bind_eval_raise (e : exn) (k : A -> M B) :
  bind (eval (Raise e)) k = ([], Raise e).
Proof. reflexivity. Qed.

Lemma bind_perform (c : call) (k : unit -> M B) :
  bind (perform c) k = (c :: calls (k tt), result (k tt)).
Proof. reflexivity. Qed.

Lemma bind_perform_run (c : call) (k : unit -> M B) t r :
  k tt = (t, r) -> bind (perform c) k = (c :: t, r).
Proof. intros H. rewrite bind_perform, H. reflexivity. Qed.

End Runs.

Lemma truthy_nonempty_str (p : pystr) : p <> [] -> truthy (PStr p) = true.
Proof. destruct p; [congruence | reflexivity]. Qed.

Lemma len_gtb_false (p : pystr) :
  (len p <= 800)%Z -> (len p >? 800)%Z = false.
Proof.
  intros H. destruct (len p >? 800)%Z eqn:E; [|reflexivity].
  apply Z.gtb_lt in E. lia.
Qed.

Lemma len_gtb_true (p : pystr) :
  (801 <= len p)%Z -> (len p >? 800)%Z = true.
Proof. intros H. apply Z.gtb_lt. lia. Qed.

Lemma dict_get_default_some (d : pydict) (k : pystr) (v default : pyval) :
  dict_get d k = Some v -> dict_get_default d k default = v.
Proof. unfold dict_get_default. intros ->. reflexivity. Qed.

Lemma dict_get_default_none (d : pydict) (k : pystr) (default : pyval) :
  dict_get d k = None -> dict_get_default d k default = default.
Proof. unfold dict_get_default. intros ->. reflexivity. Qed.

(** [(given or "").strip()] on a string is [given.strip()]. *)
Lemma py_strip_or_str (given : pystr) :
  py_strip (py_or (PStr given) (PStr [])) = Ret (strip given).
Proof. destruct given; reflexivity. Qed.

(** The steps of [lambda_handler] up to the model call, for an accepted
    request. *)
Ltac validate Hparse Hmark Hgiven Hstrip Hne Hlen :=
  unfold lambda_handler;
  rewrite Hparse, bind_eval_ret;
  cbn [py_get py_get_default];
  rewrite bind_eval_ret, Hmark, bind_eval_ret;
  rewrite (dict_get_default_some _ _ _ _ Hgiven), py_strip_or_str,
    bind_eval_ret, Hstrip, (truthy_nonempty_str _ Hne),
    (len_gtb_false _ Hlen);
  cbn [negb].

(** The model call and the parse of its payload. *)
Ltac model_call Hinvoke Hread Hloads :=
  apply bind_perform_run;
  rewrite Hinvoke; unfold read_response; rewrite Hread, Hloads;
  cbn [py_get py_get_default]; rewrite bind_eval_ret.

(** ** Content filtering *)

(** C6: when the model's payload has a non-empty [finish_reasons] list
    whose first entry is not null, the handler returns a response of
    status 400 whose body is the JSON text of the error with the list
    echoed, and the model call is the only outbound call: no storage
    write occurs. *)
Theorem filtered_generation (w : World) (event : pyval) (p : pystr)
    (data : pydict) (first : pyval) (more : list pyval) :
  accepted w event p ->
  model_replies w p data ->
  dict_get data (u "finish_reasons") = Some (PList (first :: more)) ->
  first <> PNone ->
  exists r,
    lambda_handler w event =
      ([InvokeModel (MODEL_ID w) (u "application/json")
          (u "application/json") (model_request w p)],
       Ret r)
    /\ statusCode r = 400%Z
    /\ body r =
       json_dumps w
         (PDict [(u "error", PStr (u "Filtered/failed"));
                 (u "finish_reasons", PList (first :: more))])
    /\ existsb is_put_object (calls (lambda_handler w event)) = false.
Proof.
  intros (d & (Hparse & Hmark) & given & Hgiven & Hstrip & Hne & Hlen)
         (resp & raw & Hinvoke & Hread & Hloads) Hfin Hfirst.
  assert (Hrun : lambda_handler w event =
    ([InvokeModel (MODEL_ID w) (u "application/json") (u "application/json")
        (model_request w p)],
     Ret (_resp w 400 [(u "error", PStr (u "Filtered/failed"));
                       (u "finish_reasons", PList (first :: more))]))).
  { validate Hparse Hmark Hgiven Hstrip Hne Hlen.
    model_call Hinvoke Hread Hloads.
    rewrite (dict_get_default_some _ _ _ _ Hfin).
    unfold finish_reported. cbn [truthy py_index0].
    rewrite bind_eval_ret.
    destruct first; try reflexivity. congruence. }
  eexists. split; [exact Hrun|].
  split; [reflexivity|]. split; [reflexivity|].
  rewrite Hrun. reflexivity.
Qed.

Lemma filtered_generation_witness :
  exists r,
    lambda_handler (Double.world true)
      (PDict [(u "prompt", PStr (u "  a knife fight "))]) =
      ([InvokeModel (u "stability.sd3-5-large-v1:0") (u "application/json")
          (u "application/json")
          (model_request (Double.world true) (u "a knife fight"))],
       Ret r)
    /\ statusCode r = 400%Z
    /\ body r =
       json_dumps (Double.world true)
         (PDict [(u "error", PStr (u "Filtered/failed"));
                 (u "finish_reasons", PList [PStr (u "CONTENT_FILTERED")])])
    /\ existsb is_put_object
         (calls (lambda_handler (Double.world true)
                   (PDict [(u "prompt", PStr (u "  a knife fight "))])))
       = false.
Proof.
  apply (filtered_generation (Double.world true)
           (PDict [(u "prompt", PStr (u "  a knife fight "))])
           (u "a knife fight") Double.filtered_reply
           (PStr (u "CONTENT_FILTERED")) []).
  - exists [(u "prompt", PStr (u "  a knife fight "))].
    split; [split; reflexivity|].
    exists (u "  a knife fight ").
    repeat split; try reflexivity; vm_compute; discriminate.
  - exists {| read_body := Some (Double.ascii_bytes "filtered-reply") |},
      (Double.ascii_bytes "filtered-reply").
    repeat split; reflexivity.
  - reflexivity.
  - discriminate.
Defined.

(** ** Normalisation errors *)

(** A payload with a truthy ['__parse_error__'] field ends the run with a
    400 that carries the field, before any outbound call. *)
Lemma handler_marker (w : World) (event : pyval) (d : pydict) (v : pyval) :
  _parse_event w event = Ret (PDict d) ->
  dict_get d (u "__parse_error__") = Some v ->
  truthy v = true ->
  lambda_handler w event = ([], Ret (_resp w 400 [(u "error", v)])).
Proof.
  intros Hparse Hget Htrue.
  unfold lambda_handler.
  rewrite Hparse, bind_eval_ret.
  cbn [py_get py_get_default py_getitem].
  rewrite bind_eval_ret, (dict_get_default_some _ _ _ _ Hget), Htrue, Hget.
  rewrite bind_eval_ret. reflexivity.
Qed.

(** The marker dict of [_parse_event] is such a payload. *)
Lemma handler_parse_error (w : World) (event : pyval) (msg : string) :
  msg <> EmptyString ->
  _parse_event w event = Ret (parse_error msg) ->
  lambda_handler w event = ([], Ret (_resp w 400 (error_body msg))).
Proof.
  intros Hmsg Hparse.
  apply (handler_marker w event _ (PStr (u msg)) Hparse).
  - reflexivity.
  - destruct msg; [congruence | reflexivity].
Qed.

Lemma parse_event_bad_base64 (w : World) (ev : pydict) (s : pystr) :
  dict_get ev (u "body") = Some (PStr s) ->
  truthy (dict_get_default ev (u "isBase64Encoded") PNone) = true ->
  (b64decode w s = None
   \/ exists raw, b64decode w s = Some raw /\ decode_utf8 w raw = None) ->
  _parse_event w (PDict ev) = Ret (parse_error "Invalid base64-encoded body").
Proof.
  intros Hbody Hflag Hbad.
  unfold _parse_event, dict_mem.
  rewrite Hbody, (dict_get_default_some _ _ _ _ Hbody), Hflag.
  cbn [is_str andb py_b64decode].
  destruct Hbad as [-> | (raw & -> & ->)]; reflexivity.
Qed.

(** C7, as the code has it: a mapping envelope with a truthy
    ['isBase64Encoded'] and a string ['body'] on which [base64.b64decode]
    raises, or whose decoded bytes are not UTF-8, gets a response of
    status 400 whose body is the JSON text of the error "Invalid
    base64-encoded body", and the model is not invoked.  ([b64decode]
    raises on wrong padding, not on characters outside the alphabet.) *)
Theorem invalid_base64_body (w : World) (ev : pydict) (s : pystr) :
  dict_get ev (u "body") = Some (PStr s) ->
  truthy (dict_get_default ev (u "isBase64Encoded") PNone) = true ->
  (b64decode w s = None
   \/ exists raw, b64decode w s = Some raw /\ decode_utf8 w raw = None) ->
  exists r,
    lambda_handler w (PDict ev) = ([], Ret r)
    /\ statusCode r = 400%Z
    /\ body r =
       json_dumps w
         (PDict [(u "error", PStr (u "Invalid base64-encoded body"))])
    /\ existsb is_invoke_model (calls (lambda_handler w (PDict ev))) = false.
Proof.
  intros Hbody Hflag Hbad.
  assert (Hrun : lambda_handler w (PDict ev) =
    ([], Ret (_resp w 400 (error_body "Invalid base64-encoded body")))).
  { apply handler_parse_error; [discriminate|].
    now apply parse_event_bad_base64 with (s := s). }
  eexists. split; [exact Hrun|].
  split; [reflexivity|]. split; [reflexivity|].
  rewrite Hrun. reflexivity.
Qed.

(** "abc" is not base64 (its padding is wrong); "/w==" is base64 for the
    byte 0xff, which is not UTF-8. *)
Lemma invalid_base64_body_witness :
  (exists r,
     lambda_handler (Double.world true)
       (PDict [(u "body", PStr (u "abc")); (u "isBase64Encoded", PBool true)])
     = ([], Ret r)
     /\ statusCode r = 400%Z
     /\ body r =
        json_dumps (Double.world true)
          (PDict [(u "error", PStr (u "Invalid base64-encoded body"))])
     /\ existsb is_invoke_model
          (calls (lambda_handler (Double.world true)
                    (PDict [(u "body", PStr (u "abc"));
                            (u "isBase64Encoded", PBool true)]))) = false)
  /\ (exists r,
        lambda_handler (Double.world true)
          (PDict [(u "isBase64Encoded", PInt 1); (u "body", PStr (u "/w=="))])
        = ([], Ret r)
        /\ statusCode r = 400%Z
        /\ body r =
           json_dumps (Double.world true)
             (PDict [(u "error", PStr (u "Invalid base64-encoded body"))])
        /\ existsb is_invoke_model
             (calls (lambda_handler (Double.world true)
                       (PDict [(u "isBase64Encoded", PInt 1);
                               (u "body", PStr (u "/w=="))]))) = false).
Proof.
  split.
  - apply (invalid_base64_body (Double.world true)
             [(u "body", PStr (u "abc")); (u "isBase64Encoded", PBool true)]
             (u "abc")).
    + reflexivity.
    + reflexivity.
    + left. reflexivity.
  - apply (invalid_base64_body (Double.world true)
             [(u "isBase64Encoded", PInt 1); (u "body", PStr (u "/w=="))]
             (u "/w==")).
    + reflexivity.
    + reflexivity.
    + right. exists [xff]. split; reflexivity.
Defined.

(** C7, as stated, fails: "!!!" and [Lenient.laden] are not valid base64,
    yet [b64decode] raises on neither.  With the flag set, the first is
    answered "Invalid JSON in request body" (it decodes to the empty
    string), and the second decodes to a request and reaches the model. *)
Lemma non_alphabet_base64_not_rejected :
  valid_base64 (u "!!!") = false
  /\ valid_base64 Lenient.laden = false
  /\ (exists r,
        lambda_handler Lenient.world
          (PDict [(u "body", PStr (u "!!!"));
                  (u "isBase64Encoded", PBool true)]) = ([], Ret r)
        /\ body r =
           json_dumps Lenient.world
             (PDict [(u "error", PStr (u "Invalid JSON in request body"))])
        /\ body r <>
           json_dumps Lenient.world
             (PDict [(u "error", PStr (u "Invalid base64-encoded body"))]))
  /\ existsb is_invoke_model
       (calls (lambda_handler Lenient.world
                 (PDict [(u "body", PStr Lenient.laden);
                         (u "isBase64Encoded", PBool true)]))) = true.
Proof.
  split; [reflexivity|]. split; [reflexivity|]. split; [|reflexivity].
  eexists. split; [reflexivity|]. split; [reflexivity|].
  vm_compute. discriminate.
Qed.

(** ** Publishing *)

Lemma finish_reported_clear (data : pydict) :
  no_finish_reason data ->
  finish_reported (dict_get_default data (u "finish_reasons") (PList []))
  = Ret false.
Proof.
  intros [H | [H | [H | (more & H)]]].
  - rewrite (dict_get_default_none _ _ _ H). reflexivity.
  - rewrite (dict_get_default_some _ _ _ _ H). reflexivity.
  - rewrite (dict_get_default_some _ _ _ _ H). reflexivity.
  - rewrite (dict_get_default_some _ _ _ _ H). reflexivity.
Qed.

Lemma seed_selected (data : pydict) (seed : pyval) :
  first_seed data seed ->
  py_index0 (py_or (dict_get_default data (u "seeds") PNone) (PList [PNone]))
  = Ret seed.
Proof.
  intros [(H & ->) | [(H & ->) | [(H & ->) | (more & H)]]].
  - rewrite (dict_get_default_none _ _ _ H). reflexivity.
  - rewrite (dict_get_default_some _ _ _ _ H). reflexivity.
  - rewrite (dict_get_default_some _ _ _ _ H). reflexivity.
  - rewrite (dict_get_default_some _ _ _ _ H). reflexivity.
Qed.

(** The steps from the finish reasons to the decoded image. *)
Ltac decode_image Hclear Himages Hdecode :=
  rewrite (finish_reported_clear _ Hclear), bind_eval_ret;
  rewrite bind_eval_ret, (dict_get_default_some _ _ _ _ Himages);
  cbn [py_or truthy negb];
  unfold decode_first_image; cbn [py_index0 py_b64decode];
  rewrite Hdecode.

(** C8: when the model call succeeds and yields a decodable image but
    [put_object] fails, the handler returns a response of status 502
    whose body is the JSON text of the error "S3 upload failed"; the
    storage write is its last outbound call, so no presigned URL is
    generated, and the body carries none. *)
Theorem storage_write_failure (w : World) (event : pyval) (p : pystr)
    (data : pydict) (img_bytes : bytes) :
  accepted w event p ->
  model_replies w p data ->
  no_finish_reason data ->
  first_image w data img_bytes ->
  put_object w (OUTPUT_BUCKET w) (object_key w) img_bytes (u "image/png")
  = false ->
  exists r,
    lambda_handler w event =
      ([InvokeModel (MODEL_ID w) (u "application/json")
          (u "application/json") (model_request w p);
        PutObject (OUTPUT_BUCKET w) (object_key w) img_bytes
          (u "image/png")],
       Ret r)
    /\ statusCode r = 502%Z
    /\ body r =
       json_dumps w (PDict [(u "error", PStr (u "S3 upload failed"))])
    /\ existsb is_presign (calls (lambda_handler w event)) = false.
Proof.
  intros (d & (Hparse & Hmark) & given & Hgiven & Hstrip & Hne & Hlen)
         (resp & raw & Hinvoke & Hread & Hloads) Hclear
         (img & more & Himages & Hdecode) Hput.
  assert (Hrun : lambda_handler w event =
    ([InvokeModel (MODEL_ID w) (u "application/json") (u "application/json")
        (model_request w p);
      PutObject (OUTPUT_BUCKET w) (object_key w) img_bytes (u "image/png")],
     Ret (_resp w 502 (error_body "S3 upload failed")))).
  { validate Hparse Hmark Hgiven Hstrip Hne Hlen.
    model_call Hinvoke Hread Hloads.
    decode_image Hclear Himages Hdecode.
    apply bind_perform_run. rewrite Hput. reflexivity. }
  eexists. split; [exact Hrun|].
  split; [reflexivity|]. split; [reflexivity|].
  rewrite Hrun. reflexivity.
Qed.

(** The hypotheses of a run that reaches the storage write, on the test
    double. *)
Lemma double_fox_accepted (up : bool) :
  accepted (Double.world up) Double.fox (u "a red fox").
Proof.
  exists [(u "prompt", PStr (u "a red fox"))].
  split; [split; reflexivity|].
  exists (u "a red fox").
  repeat split; try reflexivity; vm_compute; discriminate.
Defined.

Lemma double_fox_replied (up : bool) :
  model_replies (Double.world up) (u "a red fox") Double.fox_reply.
Proof.
  exists {| read_body := Some (Double.ascii_bytes "fox-reply") |},
    (Double.ascii_bytes "fox-reply").
  repeat split; reflexivity.
Defined.

Lemma double_fox_clear : no_finish_reason Double.fox_reply.
Proof. right; right; right. exists []. reflexivity. Defined.

Lemma double_fox_image (up : bool) :
  first_image (Double.world up) Double.fox_reply (Double.ascii_bytes "hi").
Proof. exists (u "aGk="), []. split; reflexivity. Defined.

Lemma storage_write_failure_witness :
  exists r,
    lambda_handler (Double.world false) Double.fox =
      ([InvokeModel (u "stability.sd3-5-large-v1:0") (u "application/json")
          (u "application/json")
          (model_request (Double.world false) (u "a red fox"));
        PutObject (u "poster-bucket")
          (u "sd35/poster_20261104093005_3f2a9c01d4.png")
          (Double.ascii_bytes "hi") (u "image/png")],
       Ret r)
    /\ statusCode r = 502%Z
    /\ body r =
       json_dumps (Double.world false)
         (PDict [(u "error", PStr (u "S3 upload failed"))])
    /\ existsb is_presign
         (calls (lambda_handler (Double.world false) Double.fox)) = false.
Proof.
  apply (storage_write_failure (Double.world false) Double.fox
           (u "a red fox") Double.fox_reply (Double.ascii_bytes "hi")).
  - apply double_fox_accepted.
  - apply double_fox_replied.
  - apply double_fox_clear.
  - apply double_fox_image.
  - reflexivity.
Defined.

(** *** The storage key *)

Lemma fixed_digits_length base chr width n :
  List.length (fixed_digits base chr width n) = width.
Proof.
  revert n. induction width as [|width IH]; intros n; simpl.
  - reflexivity.
  - rewrite length_app, IH. simpl. lia.
Qed.

Lemma fixed_digits_forallb (P : codepoint -> bool) base chr width n :
  (0 < base)%N ->
  (forall d, (d < base)%N -> P (chr d) = true) ->
  forallb P (fixed_digits base chr width n) = true.
Proof.
  intros Hbase Hchr. revert n.
  induction width as [|width IH]; intros n; simpl.
  - reflexivity.
  - rewrite forallb_app, IH. simpl.
    rewrite Hchr; [reflexivity|]. apply N.mod_lt. lia.
Qed.

Lemma digit_char_is_digit d : (d < 10)%N -> is_digit (digit_char d) = true.
Proof.
  intros H. unfold is_digit, digit_char.
  apply andb_true_iff. split; apply N.leb_le; lia.
Qed.

Lemma hex_char_is_hex_digit d :
  (d < 16)%N -> is_hex_digit (hex_char d) = true.
Proof.
  intros H. unfold is_hex_digit, hex_char.
  destruct (N.ltb_spec d 10).
  - apply orb_true_iff. left.
    apply andb_true_iff. split; apply N.leb_le; lia.
  - apply orb_true_iff. right.
    apply andb_true_iff. split; apply N.leb_le; lia.
Qed.

(** The timestamp is fourteen decimal digits. *)
Lemma strftime_YmdHMS_form (t : datetime) :
  List.length (strftime_YmdHMS t) = 14%nat
  /\ forallb is_digit (strftime_YmdHMS t) = true.
Proof.
  unfold strftime_YmdHMS. split.
  - rewrite !length_app, !fixed_digits_length. reflexivity.
  - rewrite !forallb_app.
    rewrite !(fixed_digits_forallb is_digit 10 digit_char)
      by (try reflexivity; apply digit_char_is_digit).
    reflexivity.
Qed.

(** The random identifier is ten hexadecimal digits. *)
Lemma uuid_prefix_form (n : N) :
  List.length (firstn 10 (uuid_hex n)) = 10%nat
  /\ forallb is_hex_digit (firstn 10 (uuid_hex n)) = true.
Proof.
  unfold uuid_hex. split.
  - rewrite length_firstn, fixed_digits_length. reflexivity.
  - assert (H : forallb is_hex_digit (fixed_digits 16 hex_char 32 n) = true)
      by (apply fixed_digits_forallb;
          [reflexivity | apply hex_char_is_hex_digit]).
    rewrite <- (firstn_skipn 10 (fixed_digits 16 hex_char 32 n)) in H.
    rewrite forallb_app in H. apply andb_true_iff in H. apply H.
Qed.

(** C2, as the code has it: on a fully successful run (accepted prompt,
    the model returns an image and no finish reason, the storage write
    and the presign succeed) the handler returns a response of status
    200 whose body is the JSON text of: the configured bucket, the key
    [KEY_PREFIX ++ "poster_" ++ ts ++ "_" ++ rid ++ ".png"] where [ts] is
    the clock's fourteen-digit [YYYYMMDDHHMMSS] stamp and [rid] is ten
    hexadecimal digits, the url that the presign call made with a
    3600-second expiry returned, as it is, the first element of the
    model's seeds (null when the list is absent or empty) and the
    configured model identifier. *)
Theorem successful_run (w : World) (event : pyval) (p : pystr)
    (data : pydict) (img_bytes : bytes) (url : pystr) (seed : pyval) :
  accepted w event p ->
  model_replies w p data ->
  no_finish_reason data ->
  first_image w data img_bytes ->
  first_seed data seed ->
  clock_in_range (utcnow w) ->
  put_object w (OUTPUT_BUCKET w) (object_key w) img_bytes (u "image/png")
  = true ->
  generate_presigned_url w (u "get_object") (OUTPUT_BUCKET w) (object_key w)
    3600 = Some url ->
  exists ts rid key r,
    ts = strftime_YmdHMS (utcnow w)
    /\ List.length ts = 14%nat /\ forallb is_digit ts = true
    /\ List.length rid = 10%nat /\ forallb is_hex_digit rid = true
    /\ key = KEY_PREFIX w ++ u "poster_" ++ ts ++ u "_" ++ rid ++ u ".png"
    /\ lambda_handler w event =
         ([InvokeModel (MODEL_ID w) (u "application/json")
             (u "application/json") (model_request w p);
           PutObject (OUTPUT_BUCKET w) key img_bytes (u "image/png");
           GeneratePresignedUrl (u "get_object") (OUTPUT_BUCKET w) key 3600],
          Ret r)
    /\ statusCode r = 200%Z
    /\ body r =
       json_dumps w
         (PDict [(u "bucket", PStr (OUTPUT_BUCKET w));
                 (u "key", PStr key);
                 (u "url", PStr url);
                 (u "seed", seed);
                 (u "modelId", PStr (MODEL_ID w))]).
Proof.
  intros (d & (Hparse & Hmark) & given & Hgiven & Hstrip & Hne & Hlen)
         (resp & raw & Hinvoke & Hread & Hloads) Hclear
         (img & more & Himages & Hdecode) Hseed _ Hput Hurl.
  exists (strftime_YmdHMS (utcnow w)), (firstn 10 (uuid_hex (uuid4 w))),
    (object_key w),
    (_resp w 200 [(u "bucket", PStr (OUTPUT_BUCKET w));
                  (u "key", PStr (object_key w));
                  (u "url", PStr url);
                  (u "seed", seed);
                  (u "modelId", PStr (MODEL_ID w))]).
  destruct (strftime_YmdHMS_form (utcnow w)) as [Hts_len Hts_digits].
  destruct (uuid_prefix_form (uuid4 w)) as [Hrid_len Hrid_hex].
  repeat (split; [assumption || reflexivity|]).
  split; [|split; reflexivity].
  validate Hparse Hmark Hgiven Hstrip Hne Hlen.
  model_call Hinvoke Hread Hloads.
  decode_image Hclear Himages Hdecode.
  apply bind_perform_run. rewrite Hput. cbn [negb].
  apply bind_perform_run. rewrite Hurl.
  cbn [py_get py_get_default].
  rewrite bind_eval_ret, (seed_selected _ _ Hseed), bind_eval_ret.
  reflexivity.
Qed.

Lemma successful_run_witness :
  exists ts rid key r,
    ts = strftime_YmdHMS (utcnow (Double.world true))
    /\ List.length ts = 14%nat /\ forallb is_digit ts = true
    /\ List.length rid = 10%nat /\ forallb is_hex_digit rid = true
    /\ key = u "sd35/" ++ u "poster_" ++ ts ++ u "_" ++ rid ++ u ".png"
    /\ lambda_handler (Double.world true) Double.fox =
         ([InvokeModel (u "stability.sd3-5-large-v1:0")
             (u "application/json") (u "application/json")
             (model_request (Double.world true) (u "a red fox"));
           PutObject (u "poster-bucket") key (Double.ascii_bytes "hi")
             (u "image/png");
           GeneratePresignedUrl (u "get_object") (u "poster-bucket") key 3600],
          Ret r)
    /\ statusCode r = 200%Z
    /\ body r =
       json_dumps (Double.world true)
         (PDict [(u "bucket", PStr (u "poster-bucket"));
                 (u "key", PStr key);
                 (u "url",
                  PStr (u "https://poster-bucket.s3.amazonaws.com/"
                          ++ u "sd35/poster_20261104093005_3f2a9c01d4.png"
                          ++ u "?X-Amz-Expires=3600"));
                 (u "seed", PInt 42);
                 (u "modelId", PStr (u "stability.sd3-5-large-v1:0"))]).
Proof.
  apply (successful_run (Double.world true) Double.fox (u "a red fox")
           Double.fox_reply (Double.ascii_bytes "hi")
           (u "https://poster-bucket.s3.amazonaws.com/"
              ++ u "sd35/poster_20261104093005_3f2a9c01d4.png"
              ++ u "?X-Amz-Expires=3600")
           (PInt 42)).
  - apply double_fox_accepted.
  - apply double_fox_replied.
  - apply double_fox_clear.
  - apply double_fox_image.
  - right; right; right. exists []. reflexivity.
  - vm_compute. repeat split; discriminate.
  - reflexivity.
  - reflexivity.
Defined.

(** C2, as stated, fails: the handler hands on what the presign call
    returns and does not look at it.  Where that call returns the empty
    string, the run is a full success (model, write, presign; status 200)
    and the url of the body is empty. *)
Lemma empty_presigned_url :
  generate_presigned_url (with_presigned_url (Double.world true) (Some []))
    (u "get_object") (u "poster-bucket")
    (object_key (with_presigned_url (Double.world true) (Some []))) 3600
  = Some []
  /\ exists r,
       lambda_handler (with_presigned_url (Double.world true) (Some []))
         Double.fox =
         ([InvokeModel (u "stability.sd3-5-large-v1:0")
             (u "application/json") (u "application/json")
             (model_request (Double.world true) (u "a red fox"));
           PutObject (u "poster-bucket")
             (u "sd35/poster_20261104093005_3f2a9c01d4.png")
             (Double.ascii_bytes "hi") (u "image/png");
           GeneratePresignedUrl (u "get_object") (u "poster-bucket")
             (u "sd35/poster_20261104093005_3f2a9c01d4.png") 3600],
          Ret r)
       /\ statusCode r = 200%Z
       /\ body r =
          Double.dumps
            (PDict [(u "bucket", PStr (u "poster-bucket"));
                    (u "key",
                     PStr (u "sd35/poster_20261104093005_3f2a9c01d4.png"));
                    (u "url", PStr []);
                    (u "seed", PInt 42);
                    (u "modelId", PStr (u "stability.sd3-5-large-v1:0"))])
       /\ truthy (PStr []) = false.
Proof.
  split; [reflexivity|]. eexists. repeat split.
Qed.

(** ** Prompt validation *)

(** C3, as the code has it: for a normalised payload that is a mapping
    without a truthy ['__parse_error__'] field and whose ['prompt'] is a
    string, a prompt that trims to exactly 800 characters is accepted,
    and the handler's first outbound call is the model invocation with
    that prompt; a prompt that trims to 801 characters or more gets a
    response of status 400 whose body is the JSON text of the error
    "Prompt too long (max 800 chars)", with no outbound call at all. *)
Theorem prompt_length_boundary (w : World) (event : pyval) (d : pydict)
    (given : pystr) :
  normalises_to w event d ->
  dict_get d (u "prompt") = Some (PStr given) ->
  (List.length (strip given) = 800%nat ->
   exists rest,
     calls (lambda_handler w event) =
       InvokeModel (MODEL_ID w) (u "application/json")
         (u "application/json") (model_request w (strip given)) :: rest)
  /\ ((801 <= List.length (strip given))%nat ->
      exists r,
        lambda_handler w event = ([], Ret r)
        /\ statusCode r = 400%Z
        /\ body r =
           json_dumps w
             (PDict [(u "error",
                      PStr (u "Prompt too long (max 800 chars)"))])).
Proof.
  intros (Hparse & Hmark) Hgiven.
  remember (strip given) as p eqn:Hstrip. symmetry in Hstrip.
  split; intros Hsize.
  - assert (Hne : p <> []) by (intros E; rewrite E in Hsize; discriminate).
    assert (Hlen : (len p <= 800)%Z) by (unfold len; lia).
    validate Hparse Hmark Hgiven Hstrip Hne Hlen.
    rewrite bind_perform. eexists. reflexivity.
  - assert (Hne : p <> [])
      by (intros E; rewrite E in Hsize; simpl in Hsize; lia).
    assert (Hlen : (801 <= len p)%Z) by (unfold len; lia).
    exists (_resp w 400
              [(u "error", PStr (u "Prompt too long (max 800 chars)"))]).
    split; [|split; reflexivity].
    unfold lambda_handler.
    rewrite Hparse, bind_eval_ret.
    cbn [py_get py_get_default].
    rewrite bind_eval_ret, Hmark, bind_eval_ret.
    rewrite (dict_get_default_some _ _ _ _ Hgiven), py_strip_or_str,
      bind_eval_ret, Hstrip, (truthy_nonempty_str _ Hne),
      (len_gtb_true _ Hlen).
    reflexivity.
Qed.

(** A prompt of 800 letters between blanks, and one of 801. *)
Lemma prompt_length_boundary_witness :
  (exists rest,
     calls (lambda_handler (Double.world true)
              (PDict [(u "prompt",
                       PStr (u "  " ++ repeat 97%N 800 ++ u " "))])) =
       InvokeModel (u "stability.sd3-5-large-v1:0") (u "application/json")
         (u "application/json")
         (model_request (Double.world true)
            (strip (u "  " ++ repeat 97%N 800 ++ u " "))) :: rest)
  /\ (exists r,
        lambda_handler (Double.world true)
          (PDict [(u "prompt", PStr (repeat 97%N 801))]) = ([], Ret r)
        /\ statusCode r = 400%Z
        /\ body r =
           json_dumps (Double.world true)
             (PDict [(u "error",
                      PStr (u "Prompt too long (max 800 chars)"))])).
Proof.
  split.
  - apply (proj1 (prompt_length_boundary (Double.world true)
                    (PDict [(u "prompt",
                             PStr (u "  " ++ repeat 97%N 800 ++ u " "))])
                    [(u "prompt", PStr (u "  " ++ repeat 97%N 800 ++ u " "))]
                    (u "  " ++ repeat 97%N 800 ++ u " ")
                    (conj eq_refl eq_refl) eq_refl)).
    vm_compute. reflexivity.
  - apply (proj2 (prompt_length_boundary (Double.world true)
                    (PDict [(u "prompt", PStr (repeat 97%N 801))])
                    [(u "prompt", PStr (repeat 97%N 801))]
                    (repeat 97%N 801)
                    (conj eq_refl eq_refl) eq_refl)).
    vm_compute. apply le_n.
Defined.

(** C3, as stated, fails: a payload whose ['prompt'] is a string of 800
    letters and that also carries a truthy ['__parse_error__'] field is
    normalised unchanged and answered 400 with that field, the model not
    invoked; with 801 letters the answer is the same, and is not "Prompt
    too long (max 800 chars)". *)
Lemma marked_prompt_not_validated :
  _parse_event (Double.world true)
    (PDict [(u "__parse_error__", PStr (u "x"));
            (u "prompt", PStr (repeat 97%N 800))])
  = Ret (PDict [(u "__parse_error__", PStr (u "x"));
                (u "prompt", PStr (repeat 97%N 800))])
  /\ List.length (strip (repeat 97%N 800)) = 800%nat
  /\ (exists r,
        lambda_handler (Double.world true)
          (PDict [(u "__parse_error__", PStr (u "x"));
                  (u "prompt", PStr (repeat 97%N 800))]) = ([], Ret r)
        /\ statusCode r = 400%Z
        /\ body r =
           json_dumps (Double.world true) (PDict [(u "error", PStr (u "x"))]))
  /\ (exists r,
        lambda_handler (Double.world true)
          (PDict [(u "__parse_error__", PStr (u "x"));
                  (u "prompt", PStr (repeat 97%N 801))]) = ([], Ret r)
        /\ body r =
           json_dumps (Double.world true) (PDict [(u "error", PStr (u "x"))])
        /\ body r <>
           json_dumps (Double.world true)
             (PDict [(u "error",
                      PStr (u "Prompt too long (max 800 chars)"))])).
Proof.
  split; [reflexivity|]. split; [vm_compute; reflexivity|]. split.
  - eexists. repeat split.
  - eexists. split; [reflexivity|]. split; [reflexivity|].
    vm_compute. discriminate.
Qed.

(** ** Normalisation *)

(** C5: normalisation is transparent.  For a mapping [m] without a
    ['body'] key whose serialisation [json.dumps(m)] parses back to [m],
    [_parse_event] of [{"body": json.dumps(m)}] is [m], as is
    [_parse_event] of [m] itself; and when [t] is base64 text for the
    UTF-8 bytes of that serialisation, the envelope
    [{"body": t, "isBase64Encoded": true}] normalises as the plain one
    does. *)
Theorem normalisation_transparent (w : World) (m : pydict) (t : pystr)
    (raw : bytes) :
  dict_mem m (u "body") = false ->
  json_loads w (json_dumps w (PDict m)) = Loaded (PDict m) ->
  b64decode w t = Some raw ->
  decode_utf8 w raw = Some (json_dumps w (PDict m)) ->
  _parse_event w (PDict [(u "body", PStr (json_dumps w (PDict m)))])
  = Ret (PDict m)
  /\ _parse_event w (PDict m) = Ret (PDict m)
  /\ _parse_event w
       (PDict [(u "body", PStr t); (u "isBase64Encoded", PBool true)])
     = _parse_event w (PDict [(u "body", PStr (json_dumps w (PDict m)))]).
Proof.
  intros Hdirect Hloads Hb64 Hutf8.
  set (s := json_dumps w (PDict m)) in *.
  assert (Hplain : _parse_event w (PDict [(u "body", PStr s)])
                   = Ret (PDict m)).
  { unfold _parse_event.
    change (dict_mem [(u "body", PStr s)] (u "body")) with true.
    change (dict_get_default [(u "body", PStr s)] (u "body") PNone)
      with (PStr s).
    change (dict_get_default [(u "body", PStr s)] (u "isBase64Encoded") PNone)
      with PNone.
    cbn [truthy andb]. rewrite Hloads. reflexivity. }
  split; [exact Hplain|]. split.
  - unfold _parse_event. rewrite Hdirect. reflexivity.
  - rewrite Hplain. unfold _parse_event.
    change (dict_mem [(u "body", PStr t); (u "isBase64Encoded", PBool true)]
              (u "body")) with true.
    change (dict_get_default
              [(u "body", PStr t); (u "isBase64Encoded", PBool true)]
              (u "body") PNone) with (PStr t).
    change (dict_get_default
              [(u "body", PStr t); (u "isBase64Encoded", PBool true)]
              (u "isBase64Encoded") PNone) with (PBool true).
    cbn [truthy is_str andb py_b64decode].
    rewrite Hb64, Hutf8, Hloads. reflexivity.
Qed.

Lemma normalisation_transparent_witness :
  _parse_event (Double.world true)
    (PDict [(u "body", PStr (Double.dumps Double.fox))]) = Ret Double.fox
  /\ _parse_event (Double.world true) Double.fox = Ret Double.fox
  /\ _parse_event (Double.world true)
       (PDict [(u "body", PStr (u "eyJwcm9tcHQiOiAiYSByZWQgZm94In0="));
               (u "isBase64Encoded", PBool true)])
     = _parse_event (Double.world true)
         (PDict [(u "body", PStr (Double.dumps Double.fox))]).
Proof.
  apply (normalisation_transparent (Double.world true)
           [(u "prompt", PStr (u "a red fox"))]
           (u "eyJwcm9tcHQiOiAiYSByZWQgZm94In0=")
           (Double.encode_ascii (Double.dumps Double.fox)));
    reflexivity.
Defined.

(** Where [_parse_event] reaches one of its error returns, it returns the
    marker dict with that message. *)
Lemma normalisation_error_marker (w : World) (event : pyval) (msg : string) :
  normalisation_error w event = Some msg ->
  _parse_event w event = Ret (parse_error msg) /\ msg <> EmptyString.
Proof.
  unfold normalisation_error, _parse_event.
  destruct event as [| | | | |l|ev]; try discriminate.
  destruct (dict_mem ev (u "body")); [|discriminate].
  destruct (truthy (dict_get_default ev (u "isBase64Encoded") PNone)
            && is_str (dict_get_default ev (u "body") PNone)).
  - destruct (py_b64decode w (dict_get_default ev (u "body") PNone))
      as [raw|].
    + destruct (decode_utf8 w raw) as [s|].
      * destruct (json_loads w s); try discriminate.
        intros [= <-]. split; [reflexivity | discriminate].
      * intros [= <-]. split; [reflexivity | discriminate].
    + intros [= <-]. split; [reflexivity | discriminate].
  - destruct (dict_get_default ev (u "body") PNone) as [| | | |s| |];
      try (intros [= <-]; split; [reflexivity | discriminate]);
      try discriminate.
    destruct (json_loads w s); try discriminate.
    intros [= <-]. split; [reflexivity | discriminate].
Qed.



(** C9, as stated, fails: a direct-invoke envelope with a valid prompt
    and a ['__parse_error__'] field of its own is normalised without
    error ([_parse_event] returns it unchanged), and is answered as a
    normalisation error, the model never called. *)
Lemma marker_collision :
  normalisation_error (Double.world true)
    (PDict [(u "__parse_error__", PStr (u "boom"));
            (u "prompt", PStr (u "a red fox"))]) = None
  /\ _parse_event (Double.world true)
       (PDict [(u "__parse_error__", PStr (u "boom"));
               (u "prompt", PStr (u "a red fox"))])
     = Ret (PDict [(u "__parse_error__", PStr (u "boom"));
                   (u "prompt", PStr (u "a red fox"))])
  /\ valid_prompt [(u "__parse_error__", PStr (u "boom"));
                   (u "prompt", PStr (u "a red fox"))] (u "a red fox")
  /\ lambda_handler (Double.world true)
       (PDict [(u "__parse_error__", PStr (u "boom"));
               (u "prompt", PStr (u "a red fox"))])
     = ([], Ret (_resp (Double.world true) 400
                   [(u "error", PStr (u "boom"))])).
Proof.
  repeat split.
  exists (u "a red fox").
  repeat split; try reflexivity; vm_compute; discriminate.
Qed.

(** The handler sees its envelope only through [_parse_event]. *)
Lemma handler_by_payload (w : World) (e1 e2 : pyval) :
  _parse_event w e1 = _parse_event w e2 ->
  lambda_handler w e1 = lambda_handler w e2.
Proof. unfold lambda_handler. intros ->. reflexivity. Qed.

(** C10, as the code has it: for mapping envelopes with a ['body'] key the
    normalised request depends only on the body value and on whether
    ['isBase64Encoded'] is truthy; every other top-level field, a
    top-level ['prompt'] among them, is ignored by [_parse_event] and so
    by the handler. *)
Theorem body_decides_request (w : World) (ev1 ev2 : pydict) (b : pyval) :
  dict_get ev1 (u "body") = Some b ->
  dict_get ev2 (u "body") = Some b ->
  truthy (dict_get_default ev1 (u "isBase64Encoded") PNone)
  = truthy (dict_get_default ev2 (u "isBase64Encoded") PNone) ->
  _parse_event w (PDict ev1) = _parse_event w (PDict ev2)
  /\ lambda_handler w (PDict ev1) = lambda_handler w (PDict ev2).
Proof.
  intros H1 H2 Hflag.
  assert (Hparse : _parse_event w (PDict ev1) = _parse_event w (PDict ev2)).
  { unfold _parse_event, dict_mem.
    rewrite H1, H2, (dict_get_default_some _ _ _ _ H1),
      (dict_get_default_some _ _ _ _ H2), Hflag.
    reflexivity. }
  split; [exact Hparse | now apply handler_by_payload].
Qed.

(** A valid top-level prompt beside a body is not used. *)
Lemma body_decides_request_witness :
  _parse_event (Double.world true)
    (PDict [(u "prompt", PStr (u "a red fox")); (u "body", PStr (u "{}"))])
  = _parse_event (Double.world true) (PDict [(u "body", PStr (u "{}"))])
  /\ lambda_handler (Double.world true)
       (PDict [(u "prompt", PStr (u "a red fox")); (u "body", PStr (u "{}"))])
     = lambda_handler (Double.world true) (PDict [(u "body", PStr (u "{}"))]).
Proof.
  apply (body_decides_request (Double.world true)
           [(u "prompt", PStr (u "a red fox")); (u "body", PStr (u "{}"))]
           [(u "body", PStr (u "{}"))] (PStr (u "{}")));
    reflexivity.
Defined.

(** C10, as stated, fails: two envelopes with the same body, "e30=" (the
    base64 text of an empty JSON object), normalise differently because
    of the top-level ['isBase64Encoded'] field. *)
Lemma base64_flag_is_read :
  dict_get [(u "body", PStr (u "e30="))] (u "body") = Some (PStr (u "e30="))
  /\ dict_get [(u "body", PStr (u "e30=")); (u "isBase64Encoded", PBool true)]
       (u "body") = Some (PStr (u "e30="))
  /\ _parse_event (Double.world true) (PDict [(u "body", PStr (u "e30="))])
     = Ret (parse_error "Invalid JSON in request body")
  /\ _parse_event (Double.world true)
       (PDict [(u "body", PStr (u "e30="));
               (u "isBase64Encoded", PBool true)])
     = Ret (PDict [])
  /\ _parse_event (Double.world true) (PDict [(u "body", PStr (u "e30="))])
     <> _parse_event (Double.world true)
          (PDict [(u "body", PStr (u "e30="));
                  (u "isBase64Encoded", PBool true)]).
Proof.
  repeat split. vm_compute. discriminate.
Qed.

(** ** Unhandled exceptions *)

(** C1 fails on the code: when the body is JSON text for anything but an
    object, [_parse_event] returns the parsed value unchecked and
    [payload.get] raises [AttributeError] out of the handler: no response
    object is returned. *)
Theorem non_mapping_payload_raises (w : World) (s : pystr) (v : pyval) :
  json_loads w s = Loaded v ->
  is_dict v = false ->
  lambda_handler w (PDict [(u "body", PStr s)]) = ([], Raise AttributeError).
Proof.
  intros Hloads Hv.
  assert (Hparse : _parse_event w (PDict [(u "body", PStr s)]) = Ret v).
  { unfold _parse_event.
    change (dict_mem [(u "body", PStr s)] (u "body")) with true.
    change (dict_get_default [(u "body", PStr s)] (u "body") PNone)
      with (PStr s).
    change (dict_get_default [(u "body", PStr s)] (u "isBase64Encoded") PNone)
      with PNone.
    cbn [truthy andb]. rewrite Hloads. reflexivity. }
  unfold lambda_handler. rewrite Hparse, bind_eval_ret.
  destruct v; try discriminate; reflexivity.
Qed.

(** The body [[1, 2]], a JSON array. *)
Lemma non_mapping_payload_raises_witness :
  lambda_handler (Double.world true) (PDict [(u "body", PStr (u "[1, 2]"))])
  = ([], Raise AttributeError).
Proof.
  apply (non_mapping_payload_raises (Double.world true) (u "[1, 2]")
           (PList [PInt 1; PInt 2]));
    reflexivity.
Defined.

(** The same escape after the model call: a payload of the model that
    parses to anything but a mapping makes [data.get] raise. *)
Lemma non_mapping_model_payload_raises (w : World) (event : pyval)
    (p : pystr) (resp : invoke_response) (data : pyval) :
  accepted w event p ->
  invoke_model w (MODEL_ID w) (u "application/json") (u "application/json")
    (model_request w p) = Some resp ->
  read_response w resp = Some data ->
  is_dict data = false ->
  lambda_handler w event =
    ([InvokeModel (MODEL_ID w) (u "application/json") (u "application/json")
        (model_request w p)],
     Raise AttributeError).
Proof.
  intros (d & (Hparse & Hmark) & given & Hgiven & Hstrip & Hne & Hlen)
         Hinvoke Hread Hdata.
  validate Hparse Hmark Hgiven Hstrip Hne Hlen.
  apply bind_perform_run. rewrite Hinvoke, Hread.
  destruct data; try discriminate; reflexivity.
Qed.

Lemma lstrip_blank (s : pystr) : forallb is_space s = true -> lstrip s = [].
Proof.
  induction s as [|c s IH]; simpl; [reflexivity|].
  intros H. apply andb_true_iff in H as [Hc Hs]. rewrite Hc. now apply IH.
Qed.

Lemma strip_blank (s : pystr) : forallb is_space s = true -> strip s = [].
Proof. intros H. unfold strip. rewrite (lstrip_blank s H). reflexivity. Qed.

(** What does hold of a prompt that cannot be used: a payload whose
    ['prompt'] is missing, is falsy, or is an all-whitespace string is
    answered 400 "Missing 'prompt'" before any outbound call. *)
Lemma missing_prompt_rejected (w : World) (event : pyval) (d : pydict) :
  normalises_to w event d ->
  truthy (dict_get_default d (u "prompt") PNone) = false
  \/ (exists s, dict_get d (u "prompt") = Some (PStr s)
                /\ forallb is_space s = true) ->
  lambda_handler w event =
    ([], Ret (_resp w 400 (error_body "Missing 'prompt'"))).
Proof.
  intros (Hparse & Hmark) Hprompt.
  unfold lambda_handler.
  rewrite Hparse, bind_eval_ret.
  cbn [py_get py_get_default].
  rewrite bind_eval_ret, Hmark, bind_eval_ret.
  destruct Hprompt as [Hfalsy | (s & Hs & Hblank)].
  - unfold py_or. rewrite Hfalsy. cbn [py_strip].
    rewrite bind_eval_ret. reflexivity.
  - rewrite (dict_get_default_some _ _ _ _ Hs), py_strip_or_str,
      bind_eval_ret, (strip_blank s Hblank).
    reflexivity.
Qed.

(** An envelope that is not a mapping normalises to the empty mapping
    and is answered the same way. *)
Lemma non_mapping_envelope_rejected (w : World) (event : pyval) :
  is_dict event = false ->
  lambda_handler w event =
    ([], Ret (_resp w 400 (error_body "Missing 'prompt'"))).
Proof.
  intros H. apply missing_prompt_rejected with (d := []).
  - split; [|reflexivity]. destruct event; try reflexivity; discriminate.
  - left. reflexivity.
Qed.

(** C4 fails on the code: a ['prompt'] that is truthy and not a string
    (a number, a non-empty list or mapping, [true]) survives
    [payload.get("prompt") or ""], and [.strip()] raises
    [AttributeError] out of the handler: no 400 is returned. *)
Theorem truthy_non_string_prompt_raises (w : World) (event : pyval)
    (d : pydict) (v : pyval) :
  normalises_to w event d ->
  dict_get d (u "prompt") = Some v ->
  truthy v = true ->
  is_str v = false ->
  lambda_handler w event = ([], Raise AttributeError).
Proof.
  intros (Hparse & Hmark) Hget Htrue Hstr.
  unfold lambda_handler.
  rewrite Hparse, bind_eval_ret.
  cbn [py_get py_get_default].
  rewrite bind_eval_ret, Hmark, bind_eval_ret.
  rewrite (dict_get_default_some _ _ _ _ Hget).
  unfold py_or. rewrite Htrue.
  destruct v; try discriminate; reflexivity.
Qed.

(** The envelope [{"prompt": 5}]. *)
Lemma truthy_non_string_prompt_raises_witness :
  lambda_handler (Double.world true) (PDict [(u "prompt", PInt 5)])
  = ([], Raise AttributeError).
Proof.
  apply (truthy_non_string_prompt_raises (Double.world true)
           (PDict [(u "prompt", PInt 5)]) [(u "prompt", PInt 5)] (PInt 5));
    try reflexivity.
  split; reflexivity.
Defined.

(* ------------------------------------------------------------------ *)
(** ** Trimming *)

Lemma lstrip_length (s : pystr) :
  (List.length (lstrip s) <= List.length s)%nat.
Proof.
  induction s as [|c s IH]; simpl; [lia|].
  destruct (is_space c); simpl; lia.
Qed.

Lemma strip_length (s : pystr) :
  (List.length (strip s) <= List.length s)%nat.
Proof.
  unfold strip, rstrip. rewrite length_rev.
  pose proof (lstrip_length (rev (lstrip s))) as H1.
  rewrite length_rev in H1.
  pose proof (lstrip_length s). lia.
Qed.

(** What [lstrip] leaves starts with a character that is not a blank. *)
Lemma lstrip_head (s : pystr) (c : codepoint) (rest : pystr) :
  lstrip s = c :: rest -> is_space c = false.
Proof.
  induction s as [|d s IH]; simpl; [discriminate|].
  destruct (is_space d) eqn:E; [exact IH|].
  intros [= <- _]. exact E.
Qed.

Lemma lstrip_fixed (s : pystr) :
  match s with c :: _ => is_space c = false | [] => True end ->
  lstrip s = s.
Proof. destruct s as [|c s]; simpl; [reflexivity|]. intros ->. reflexivity. Qed.

Lemma lstrip_idempotent (s : pystr) : lstrip (lstrip s) = lstrip s.
Proof.
  apply lstrip_fixed. destruct (lstrip s) as [|c rest] eqn:E; [exact I|].
  exact (lstrip_head s c rest E).
Qed.

Lemma lstrip_snoc (s : pystr) (c : codepoint) :
  lstrip (s ++ [c]) =
  match lstrip s with
  | [] => lstrip [c]
  | kept => kept ++ [c]
  end.
Proof.
  induction s as [|d s IH]; [reflexivity|].
  simpl. destruct (is_space d); [exact IH | reflexivity].
Qed.

(** Trimming on the right keeps a first character that is not a blank. *)
Lemma rstrip_cons (c : codepoint) (s : pystr) :
  is_space c = false -> exists rest, rstrip (c :: s) = c :: rest.
Proof.
  intros Hc. unfold rstrip. simpl rev. rewrite lstrip_snoc.
  destruct (lstrip (rev s)) as [|d kept].
  - simpl. rewrite Hc. exists []. reflexivity.
  - rewrite rev_app_distr. simpl. eexists. reflexivity.
Qed.

Lemma rstrip_idempotent (s : pystr) : rstrip (rstrip s) = rstrip s.
Proof. unfold rstrip. rewrite rev_involutive, lstrip_idempotent. reflexivity. Qed.

(** [s.strip().strip() == s.strip()]. *)
Lemma strip_idempotent (s : pystr) : strip (strip s) = strip s.
Proof.
  unfold strip at 1.
  assert (H : lstrip (strip s) = strip s).
  { apply lstrip_fixed. unfold strip.
    destruct (lstrip s) as [|c rest] eqn:E; [exact I|].
    destruct (rstrip_cons c rest (lstrip_head s c rest E)) as (kept & ->).
    exact (lstrip_head s c rest E). }
  rewrite H. unfold strip. apply rstrip_idempotent.
Qed.

Lemma lstrip_empty (s : pystr) : lstrip s = [] -> forallb is_space s = true.
Proof.
  induction s as [|c s IH]; simpl; [reflexivity|].
  destruct (is_space c); [exact IH | discriminate].
Qed.

(** [s.strip()] is empty exactly when [s] is all whitespace. *)
Lemma strip_empty_iff (s : pystr) :
  strip s = [] <-> forallb is_space s = true.
Proof.
  split; [|apply strip_blank].
  unfold strip. intros H.
  destruct (lstrip s) as [|c rest] eqn:E; [now apply lstrip_empty|].
  destruct (rstrip_cons c rest (lstrip_head s c rest E)) as (kept & Hk).
  rewrite Hk in H. discriminate.
Qed.

Lemma py_strip_trimmed (v : pyval) (p : pystr) :
  py_strip v = Ret p -> strip p = p.
Proof.
  destruct v; try discriminate. intros [= <-]. apply strip_idempotent.
Qed.

(* ------------------------------------------------------------------ *)
(** ** Every run *)

(** Close a goal [run_shape w run] once [run] is an explicit pair. *)
Ltac shape :=
  cbn [calls result ret eval fst snd];
  solve [ econstructor; eassumption ].

(** Every run of the handler leaves by one of the exits of [run_shape]. *)
Lemma handler_run_shape (w : World) (event : pyval) :
  run_shape w (lambda_handler w event).
Proof.
  unfold lambda_handler.
  destruct (_parse_event w event) as [payload|e];
    [rewrite bind_eval_ret | rewrite bind_eval_raise; shape].
  destruct (py_get payload (u "__parse_error__")) as [marker|e];
    [rewrite bind_eval_ret | rewrite bind_eval_raise; shape].
  destruct (truthy marker).
  { destruct (py_getitem payload (u "__parse_error__")) as [msg|e];
      [rewrite bind_eval_ret | rewrite bind_eval_raise]; shape. }
  destruct (py_get payload (u "prompt")) as [given|e];
    [rewrite bind_eval_ret | rewrite bind_eval_raise; shape].
  destruct (py_strip (py_or given (PStr []))) as [prompt|e] eqn:Hstrip;
    [rewrite bind_eval_ret | rewrite bind_eval_raise; shape].
  destruct (truthy (PStr prompt)) eqn:Hne; cbn [negb]; [|shape].
  destruct (len prompt >? 800)%Z eqn:Hlen; [shape|].
  assert (Hsend : sendable prompt).
  { split; [|split].
    - intros ->. discriminate.
    - destruct (Z.gtb_spec (len prompt) 800); [discriminate | assumption].
    - exact (py_strip_trimmed _ _ Hstrip). }
  rewrite bind_perform.
  fold (invoke_call w prompt).
  destruct (invoke_model w (MODEL_ID w) (u "application/json")
              (u "application/json") (model_request w prompt)) as [resp|];
    [|shape].
  destruct (read_response w resp) as [data|]; [|shape].
  destruct (py_get_default data (u "finish_reasons") (PList []))
    as [finish_reasons|e];
    [rewrite bind_eval_ret | rewrite bind_eval_raise; shape].
  destruct (finish_reported finish_reasons) as [filtered|e];
    [rewrite bind_eval_ret | rewrite bind_eval_raise; shape].
  destruct filtered; [shape|].
  destruct (py_get data (u "images")) as [found|e];
    [rewrite bind_eval_ret | rewrite bind_eval_raise; shape].
  destruct (truthy (py_or found (PList []))); cbn [negb]; [|shape].
  destruct (decode_first_image w (py_or found (PList []))) as [img_bytes|];
    [|shape].
  rewrite bind_perform.
  fold (put_call w img_bytes).
  destruct (put_object w (OUTPUT_BUCKET w) (object_key w) img_bytes
              (u "image/png")); cbn [negb]; [|shape].
  rewrite bind_perform.
  fold (presign_call w).
  destruct (generate_presigned_url w (u "get_object") (OUTPUT_BUCKET w)
              (object_key w) 3600) as [url|]; [|shape].
  destruct (py_get data (u "seeds")) as [seeds|e];
    [rewrite bind_eval_ret | rewrite bind_eval_raise; shape].
  destruct (py_index0 (py_or seeds (PList [PNone]))) as [seed|e];
    [rewrite bind_eval_ret | rewrite bind_eval_raise]; shape.
Qed.

(** X1: whatever the envelope and the world, a response the handler
    returns has status 200, 400 or 502, the JSON content type and the CORS
    header, and a body that is the JSON text of a mapping. *)
Theorem response_well_formed (w : World) (event : pyval) (r : response) :
  result (lambda_handler w event) = Ret r ->
  (statusCode r = 200 \/ statusCode r = 400 \/ statusCode r = 502)%Z
  /\ headers r = [(u "Content-Type", u "application/json");
                  (u "Access-Control-Allow-Origin", u "*")]
  /\ exists fields, body r = json_dumps w (PDict fields).
Proof.
  intros Hr. pose proof (handler_run_shape w event) as Hshape.
  destruct (lambda_handler w event) as [made ending].
  cbn [result snd] in Hr. subst ending.
  inversion Hshape; subst; cbn [statusCode headers body _resp];
    (split; [tauto | split; [reflexivity | eexists; reflexivity]]).
Qed.

Lemma response_well_formed_witness :
  (statusCode (_resp (Double.world true) 400 (error_body "Missing 'prompt'"))
   = 200
   \/ statusCode (_resp (Double.world true) 400
                    (error_body "Missing 'prompt'")) = 400
   \/ statusCode (_resp (Double.world true) 400
                    (error_body "Missing 'prompt'")) = 502)%Z
  /\ headers (_resp (Double.world true) 400 (error_body "Missing 'prompt'"))
     = [(u "Content-Type", u "application/json");
        (u "Access-Control-Allow-Origin", u "*")]
  /\ exists fields,
       body (_resp (Double.world true) 400 (error_body "Missing 'prompt'"))
       = json_dumps (Double.world true) (PDict fields).
Proof.
  apply (response_well_formed (Double.world true) (PList [])).
  reflexivity.
Defined.

(** X2: the outbound calls of a run are an initial part of: one model
    invocation with the configured model, one write of the configured
    bucket at the generated key with content type [image/png], one
    presign of [get_object] for the same bucket and key with expiry 3600.
    No call is repeated and none is made out of this order. *)
Theorem call_discipline (w : World) (event : pyval) :
  exists p img_bytes n,
    calls (lambda_handler w event) =
    firstn n
      [InvokeModel (MODEL_ID w) (u "application/json")
         (u "application/json") (model_request w p);
       PutObject (OUTPUT_BUCKET w) (object_key w) img_bytes (u "image/png");
       GeneratePresignedUrl (u "get_object") (OUTPUT_BUCKET w) (object_key w)
         3600].
Proof.
  pose proof (handler_run_shape w event) as Hshape.
  destruct (lambda_handler w event) as [made ending]. cbn [calls fst].
  inversion Hshape; subst.
  1,2: exists [], [], 0%nat; reflexivity.
  1,2,3: exists p, [], 1%nat; reflexivity.
  1: exists p, img_bytes, 2%nat; reflexivity.
  all: exists p, img_bytes, 3%nat; reflexivity.
Qed.

(** X3: every model invocation the handler makes carries a prompt that is
    not empty, has at most 800 characters and has no leading or trailing
    whitespace, in the request [{"prompt": p, "output_format": "png"}]
    for the configured model. *)
Theorem invoked_prompt_valid (w : World) (event : pyval) (c : call) :
  In c (calls (lambda_handler w event)) ->
  is_invoke_model c = true ->
  exists p,
    c = InvokeModel (MODEL_ID w) (u "application/json")
          (u "application/json") (model_request w p)
    /\ p <> [] /\ (len p <= 800)%Z /\ strip p = p.
Proof.
  intros Hin Hc. pose proof (handler_run_shape w event) as Hshape.
  destruct (lambda_handler w event) as [made ending]. cbn [calls fst] in Hin.
  inversion Hshape; subst; cbn [In] in Hin;
    repeat (destruct Hin as [<- | Hin]; try discriminate Hc);
    try contradiction;
    (exists p; split; [reflexivity | assumption]).
Qed.

Lemma invoked_prompt_valid_witness :
  exists p,
    InvokeModel (u "stability.sd3-5-large-v1:0") (u "application/json")
      (u "application/json")
      (model_request (Double.world true) (u "a red fox"))
    = InvokeModel (MODEL_ID (Double.world true)) (u "application/json")
        (u "application/json") (model_request (Double.world true) p)
    /\ p <> [] /\ (len p <= 800)%Z /\ strip p = p.
Proof.
  apply (invoked_prompt_valid (Double.world true)
           (PDict [(u "prompt", PStr (u "  a red fox "))])).
  - left. reflexivity.
  - reflexivity.
Defined.

(** X4: the status tells what was done.  A 400 is returned only when
    nothing was written to storage and nothing presigned; a 200 only
    after exactly the model call, the storage write and the presign; a
    502 only after the model was called. *)
Theorem status_reflects_calls (w : World) (event : pyval) (r : response) :
  result (lambda_handler w event) = Ret r ->
  (statusCode r = 400%Z ->
   existsb is_put_object (calls (lambda_handler w event)) = false
   /\ existsb is_presign (calls (lambda_handler w event)) = false)
  /\ (statusCode r = 200%Z ->
      exists p img_bytes,
        calls (lambda_handler w event) =
        [invoke_call w p; put_call w img_bytes; presign_call w])
  /\ (statusCode r = 502%Z ->
      exists p rest,
        calls (lambda_handler w event) = invoke_call w p :: rest).
Proof.
  intros Hr. pose proof (handler_run_shape w event) as Hshape.
  destruct (lambda_handler w event) as [made ending].
  cbn [result snd calls fst] in *. subst ending.
  inversion Hshape; subst; cbn [statusCode _resp];
    (split; [|split]); intros Hcode; try discriminate Hcode;
    try (split; reflexivity); eauto.
Qed.

Lemma status_reflects_calls_witness :
  exists p img_bytes,
    calls (lambda_handler (Double.world true) Double.fox) =
    [invoke_call (Double.world true) p;
     put_call (Double.world true) img_bytes;
     presign_call (Double.world true)].
Proof.
  refine (proj1 (proj2 (status_reflects_calls (Double.world true) Double.fox
                          _ eq_refl)) _).
  reflexivity.
Defined.

(* ------------------------------------------------------------------ *)
(** ** Upstream failures *)

(** X5: when [invoke_model] raises, the handler returns a response of
    status 502 whose body is the JSON text of the error "Bedrock invoke
    failed"; the model call is its only outbound call. *)
Theorem model_call_failure (w : World) (event : pyval) (p : pystr) :
  accepted w event p ->
  invoke_model w (MODEL_ID w) (u "application/json") (u "application/json")
    (model_request w p) = None ->
  exists r,
    lambda_handler w event =
      ([InvokeModel (MODEL_ID w) (u "application/json")
          (u "application/json") (model_request w p)],
       Ret r)
    /\ statusCode r = 502%Z
    /\ body r =
       json_dumps w (PDict [(u "error", PStr (u "Bedrock invoke failed"))]).
Proof.
  intros (d & (Hparse & Hmark) & given & Hgiven & Hstrip & Hne & Hlen) Hinvoke.
  exists (_resp w 502 [(u "error", PStr (u "Bedrock invoke failed"))]).
  split; [|split; reflexivity].
  validate Hparse Hmark Hgiven Hstrip Hne Hlen.
  apply bind_perform_run. rewrite Hinvoke. reflexivity.
Qed.

Lemma faulty_fox_accepted reply payload storage_up presign_up :
  accepted (Faulty.world reply payload storage_up presign_up) Double.fox
    (u "a red fox").
Proof.
  exists [(u "prompt", PStr (u "a red fox"))].
  split; [split; reflexivity|].
  exists (u "a red fox").
  repeat split; try reflexivity; vm_compute; discriminate.
Defined.

Lemma model_call_failure_witness :
  exists r,
    lambda_handler (Faulty.world None None true true) Double.fox =
      ([InvokeModel (u "stability.sd3-5-large-v1:0") (u "application/json")
          (u "application/json")
          (model_request (Faulty.world None None true true)
             (u "a red fox"))],
       Ret r)
    /\ statusCode r = 502%Z
    /\ body r =
       json_dumps (Faulty.world None None true true)
         (PDict [(u "error", PStr (u "Bedrock invoke failed"))]).
Proof.
  apply (model_call_failure (Faulty.world None None true true) Double.fox
           (u "a red fox")).
  - apply faulty_fox_accepted.
  - reflexivity.
Defined.

(** X6: when the model call returns but its body cannot be read or is not
    JSON, the handler returns a response of status 502 whose body is the
    JSON text of the error "Invalid Bedrock response", and makes no
    further call. *)
Theorem model_response_unreadable (w : World) (event : pyval) (p : pystr)
    (resp : invoke_response) :
  accepted w event p ->
  invoke_model w (MODEL_ID w) (u "application/json") (u "application/json")
    (model_request w p) = Some resp ->
  (read_body resp = None
   \/ exists raw, read_body resp = Some raw /\ json_loads_bytes w raw = None) ->
  exists r,
    lambda_handler w event =
      ([InvokeModel (MODEL_ID w) (u "application/json")
          (u "application/json") (model_request w p)],
       Ret r)
    /\ statusCode r = 502%Z
    /\ body r =
       json_dumps w (PDict [(u "error", PStr (u "Invalid Bedrock response"))]).
Proof.
  intros (d & (Hparse & Hmark) & given & Hgiven & Hstrip & Hne & Hlen)
         Hinvoke Hbad.
  exists (_resp w 502 [(u "error", PStr (u "Invalid Bedrock response"))]).
  split; [|split; reflexivity].
  validate Hparse Hmark Hgiven Hstrip Hne Hlen.
  apply bind_perform_run. rewrite Hinvoke. unfold read_response.
  destruct Hbad as [-> | (raw & -> & ->)]; reflexivity.
Qed.

Lemma model_response_unreadable_witness :
  exists r,
    lambda_handler (Faulty.world Faulty.readable None true true) Double.fox =
      ([InvokeModel (u "stability.sd3-5-large-v1:0") (u "application/json")
          (u "application/json")
          (model_request (Faulty.world Faulty.readable None true true)
             (u "a red fox"))],
       Ret r)
    /\ statusCode r = 502%Z
    /\ body r =
       json_dumps (Faulty.world Faulty.readable None true true)
         (PDict [(u "error", PStr (u "Invalid Bedrock response"))]).
Proof.
  apply (model_response_unreadable
           (Faulty.world Faulty.readable None true true) Double.fox
           (u "a red fox")
           {| read_body := Some (Double.ascii_bytes "payload") |}).
  - apply faulty_fox_accepted.
  - reflexivity.
  - right. exists (Double.ascii_bytes "payload"). split; reflexivity.
Defined.

(** X7: when the model reports no finish reason and its ['images'] is
    absent, null or empty, the handler returns a response of status 502
    whose body is the JSON text of the error "No image returned from
    model", and writes nothing to storage. *)
Theorem no_image_returned (w : World) (event : pyval) (p : pystr)
    (data : pydict) :
  accepted w event p ->
  model_replies w p data ->
  no_finish_reason data ->
  truthy (dict_get_default data (u "images") PNone) = false ->
  exists r,
    lambda_handler w event =
      ([InvokeModel (MODEL_ID w) (u "application/json")
          (u "application/json") (model_request w p)],
       Ret r)
    /\ statusCode r = 502%Z
    /\ body r =
       json_dumps w
         (PDict [(u "error", PStr (u "No image returned from model"))]).
Proof.
  intros (d & (Hparse & Hmark) & given & Hgiven & Hstrip & Hne & Hlen)
         (resp & raw & Hinvoke & Hread & Hloads) Hclear Himages.
  exists (_resp w 502 [(u "error", PStr (u "No image returned from model"))]).
  split; [|split; reflexivity].
  validate Hparse Hmark Hgiven Hstrip Hne Hlen.
  model_call Hinvoke Hread Hloads.
  rewrite (finish_reported_clear _ Hclear), bind_eval_ret, bind_eval_ret.
  unfold py_or. rewrite Himages. reflexivity.
Qed.

Lemma faulty_fox_replied (data : pydict) storage_up presign_up :
  model_replies
    (Faulty.world Faulty.readable (Some (PDict data)) storage_up presign_up)
    (u "a red fox") data.
Proof.
  exists {| read_body := Some (Double.ascii_bytes "payload") |},
    (Double.ascii_bytes "payload").
  repeat split; reflexivity.
Defined.

Lemma no_image_returned_witness :
  exists r,
    lambda_handler
      (Faulty.world Faulty.readable (Some (PDict [(u "images", PList [])]))
         true true) Double.fox =
      ([InvokeModel (u "stability.sd3-5-large-v1:0") (u "application/json")
          (u "application/json")
          (model_request
             (Faulty.world Faulty.readable
                (Some (PDict [(u "images", PList [])])) true true)
             (u "a red fox"))],
       Ret r)
    /\ statusCode r = 502%Z
    /\ body r =
       json_dumps
         (Faulty.world Faulty.readable
            (Some (PDict [(u "images", PList [])])) true true)
         (PDict [(u "error", PStr (u "No image returned from model"))]).
Proof.
  apply (no_image_returned
           (Faulty.world Faulty.readable
              (Some (PDict [(u "images", PList [])])) true true)
           Double.fox (u "a red fox") [(u "images", PList [])]).
  - apply faulty_fox_accepted.
  - apply faulty_fox_replied.
  - left. reflexivity.
  - reflexivity.
Defined.



(** X9: when the storage write succeeds and the presign raises, the
    handler returns a response of status 502 whose body is the JSON text
    of the error "Failed to generate presigned URL"; the object has been
    written by then and stays in the bucket. *)
Theorem presign_failure (w : World) (event : pyval) (p : pystr)
    (data : pydict) (img_bytes : bytes) :
  accepted w event p ->
  model_replies w p data ->
  no_finish_reason data ->
  first_image w data img_bytes ->
  put_object w (OUTPUT_BUCKET w) (object_key w) img_bytes (u "image/png")
  = true ->
  generate_presigned_url w (u "get_object") (OUTPUT_BUCKET w) (object_key w)
    3600 = None ->
  exists r,
    lambda_handler w event =
      ([InvokeModel (MODEL_ID w) (u "application/json")
          (u "application/json") (model_request w p);
        PutObject (OUTPUT_BUCKET w) (object_key w) img_bytes
          (u "image/png");
        GeneratePresignedUrl (u "get_object") (OUTPUT_BUCKET w)
          (object_key w) 3600],
       Ret r)
    /\ statusCode r = 502%Z
    /\ body r =
       json_dumps w
         (PDict [(u "error", PStr (u "Failed to generate presigned URL"))]).
Proof.
  intros (d & (Hparse & Hmark) & given & Hgiven & Hstrip & Hne & Hlen)
         (resp & raw & Hinvoke & Hread & Hloads) Hclear
         (img & more & Himages & Hdecode) Hput Hurl.
  exists (_resp w 502
            [(u "error", PStr (u "Failed to generate presigned URL"))]).
  split; [|split; reflexivity].
  validate Hparse Hmark Hgiven Hstrip Hne Hlen.
  model_call Hinvoke Hread Hloads.
  decode_image Hclear Himages Hdecode.
  apply bind_perform_run. rewrite Hput. cbn [negb].
  apply bind_perform_run. rewrite Hurl. reflexivity.
Qed.

Lemma presign_failure_witness :
  exists r,
    lambda_handler
      (Faulty.world Faulty.readable (Some (PDict Double.fox_reply))
         true false) Double.fox =
      ([InvokeModel (u "stability.sd3-5-large-v1:0") (u "application/json")
          (u "application/json")
          (model_request
             (Faulty.world Faulty.readable (Some (PDict Double.fox_reply))
                true false) (u "a red fox"));
        PutObject (u "poster-bucket")
          (u "sd35/poster_20261104093005_3f2a9c01d4.png")
          (Double.ascii_bytes "hi") (u "image/png");
        GeneratePresignedUrl (u "get_object") (u "poster-bucket")
          (u "sd35/poster_20261104093005_3f2a9c01d4.png") 3600],
       Ret r)
    /\ statusCode r = 502%Z
    /\ body r =
       json_dumps
         (Faulty.world Faulty.readable (Some (PDict Double.fox_reply))
            true false)
         (PDict [(u "error", PStr (u "Failed to generate presigned URL"))]).
Proof.
  apply (presign_failure
           (Faulty.world Faulty.readable (Some (PDict Double.fox_reply))
              true false)
           Double.fox (u "a red fox") Double.fox_reply
           (Double.ascii_bytes "hi")).
  - apply faulty_fox_accepted.
  - apply faulty_fox_replied.
  - apply double_fox_clear.
  - exists (u "aGk="), []. split; reflexivity.
  - reflexivity.
  - reflexivity.
Defined.

(* ------------------------------------------------------------------ *)
(** ** More of normalisation *)

Lemma parse_event_invalid_json (w : World) (ev : pydict) (s text : pystr) :
  dict_get ev (u "body") = Some (PStr s) ->
  (truthy (dict_get_default ev (u "isBase64Encoded") PNone) = false
   /\ text = s)
  \/ (truthy (dict_get_default ev (u "isBase64Encoded") PNone) = true
      /\ exists raw, b64decode w s = Some raw
                     /\ decode_utf8 w raw = Some text) ->
  json_loads w text = JSONDecodeError ->
  _parse_event w (PDict ev) = Ret (parse_error "Invalid JSON in request body").
Proof.
  intros Hbody Htext Hloads.
  unfold _parse_event, dict_mem.
  rewrite Hbody, (dict_get_default_some _ _ _ _ Hbody).
  destruct Htext as [(-> & ->) | (-> & raw & Hraw & Hutf8)];
    cbn [is_str andb py_b64decode].
  - rewrite Hloads. reflexivity.
  - rewrite Hraw, Hutf8, Hloads. reflexivity.
Qed.

(** X10: a string body that is not JSON, taken as it is when
    ['isBase64Encoded'] is falsy and after base64 and UTF-8 decoding when
    it is truthy, gets a response of status 400 whose body is the JSON
    text of the error "Invalid JSON in request body", with no outbound
    call. *)
Theorem invalid_json_body (w : World) (ev : pydict) (s text : pystr) :
  dict_get ev (u "body") = Some (PStr s) ->
  (truthy (dict_get_default ev (u "isBase64Encoded") PNone) = false
   /\ text = s)
  \/ (truthy (dict_get_default ev (u "isBase64Encoded") PNone) = true
      /\ exists raw, b64decode w s = Some raw
                     /\ decode_utf8 w raw = Some text) ->
  json_loads w text = JSONDecodeError ->
  exists r,
    lambda_handler w (PDict ev) = ([], Ret r)
    /\ statusCode r = 400%Z
    /\ body r =
       json_dumps w
         (PDict [(u "error", PStr (u "Invalid JSON in request body"))]).
Proof.
  intros Hbody Htext Hloads.
  exists (_resp w 400 [(u "error", PStr (u "Invalid JSON in request body"))]).
  split; [|split; reflexivity].
  apply (handler_parse_error w (PDict ev) "Invalid JSON in request body");
    [discriminate|].
  now apply parse_event_invalid_json with (s := s) (text := text).
Qed.

(** The text "e30=" is no JSON; "aGk=" is base64 for "hi", no JSON
    either. *)
Lemma invalid_json_body_witness :
  (exists r,
     lambda_handler (Double.world true) (PDict [(u "body", PStr (u "e30="))])
     = ([], Ret r)
     /\ statusCode r = 400%Z
     /\ body r =
        json_dumps (Double.world true)
          (PDict [(u "error", PStr (u "Invalid JSON in request body"))]))
  /\ (exists r,
        lambda_handler (Double.world true)
          (PDict [(u "isBase64Encoded", PBool true);
                  (u "body", PStr (u "aGk="))]) = ([], Ret r)
        /\ statusCode r = 400%Z
        /\ body r =
           json_dumps (Double.world true)
             (PDict [(u "error", PStr (u "Invalid JSON in request body"))])).
Proof.
  split.
  - apply (invalid_json_body (Double.world true)
             [(u "body", PStr (u "e30="))] (u "e30=") (u "e30=")).
    + reflexivity.
    + left. split; reflexivity.
    + reflexivity.
  - apply (invalid_json_body (Double.world true)
             [(u "isBase64Encoded", PBool true); (u "body", PStr (u "aGk="))]
             (u "aGk=") (u "hi")).
    + reflexivity.
    + right. split; [reflexivity|].
      exists (Double.ascii_bytes "hi"). split; reflexivity.
    + reflexivity.
Defined.

(** X11: a body that is neither a string nor a mapping (null, a number,
    a boolean, a list) gets a response of status 400 whose body is the
    JSON text of the error "Unsupported body format", with no outbound
    call, whatever ['isBase64Encoded'] and the other fields are. *)
Theorem unsupported_body (w : World) (ev : pydict) (b : pyval) :
  dict_get ev (u "body") = Some b ->
  is_str b = false ->
  is_dict b = false ->
  exists r,
    lambda_handler w (PDict ev) = ([], Ret r)
    /\ statusCode r = 400%Z
    /\ body r =
       json_dumps w (PDict [(u "error", PStr (u "Unsupported body format"))]).
Proof.
  intros Hbody Hstr Hdict.
  exists (_resp w 400 [(u "error", PStr (u "Unsupported body format"))]).
  split; [|split; reflexivity].
  apply (handler_parse_error w (PDict ev) "Unsupported body format");
    [discriminate|].
  unfold _parse_event, dict_mem.
  rewrite Hbody, (dict_get_default_some _ _ _ _ Hbody), Hstr, andb_false_r.
  destruct b; try discriminate; reflexivity.
Qed.

(** A proxy event without a body, as for a GET: [{"body": null}]. *)
Lemma unsupported_body_witness :
  exists r,
    lambda_handler (Double.world true)
      (PDict [(u "prompt", PStr (u "a red fox")); (u "body", PNone)])
    = ([], Ret r)
    /\ statusCode r = 400%Z
    /\ body r =
       json_dumps (Double.world true)
         (PDict [(u "error", PStr (u "Unsupported body format"))]).
Proof.
  apply (unsupported_body (Double.world true)
           [(u "prompt", PStr (u "a red fox")); (u "body", PNone)] PNone);
    reflexivity.
Defined.

(** X12: a body that is already a mapping is the normalised request,
    whatever ['isBase64Encoded'] says; when that mapping has no ['body']
    key of its own, the handler treats the envelope exactly as a direct
    invocation with the mapping. *)
Theorem mapping_body_is_request (w : World) (ev d : pydict) :
  dict_get ev (u "body") = Some (PDict d) ->
  _parse_event w (PDict ev) = Ret (PDict d)
  /\ (dict_mem d (u "body") = false ->
      lambda_handler w (PDict ev) = lambda_handler w (PDict d)).
Proof.
  intros Hbody.
  assert (Hparse : _parse_event w (PDict ev) = Ret (PDict d)).
  { unfold _parse_event, dict_mem.
    rewrite Hbody, (dict_get_default_some _ _ _ _ Hbody).
    cbn [is_str]. rewrite andb_false_r. reflexivity. }
  split; [exact Hparse|].
  intros Hdirect. apply handler_by_payload.
  rewrite Hparse. unfold _parse_event. rewrite Hdirect. reflexivity.
Qed.

Lemma mapping_body_is_request_witness :
  _parse_event (Double.world true)
    (PDict [(u "isBase64Encoded", PBool true); (u "body", Double.fox)])
  = Ret Double.fox
  /\ (dict_mem [(u "prompt", PStr (u "a red fox"))] (u "body") = false ->
      lambda_handler (Double.world true)
        (PDict [(u "isBase64Encoded", PBool true); (u "body", Double.fox)])
      = lambda_handler (Double.world true) Double.fox).
Proof.
  apply (mapping_body_is_request (Double.world true)
           [(u "isBase64Encoded", PBool true); (u "body", Double.fox)]
           [(u "prompt", PStr (u "a red fox"))]).
  reflexivity.
Defined.

(** X13: of the normalised request the handler reads two fields only,
    ['__parse_error__'] and ['prompt']: two envelopes whose payloads agree
    on them are answered by the same run, whatever else the payloads
    hold. *)
Theorem only_prompt_and_marker_read (w : World) (e1 e2 : pyval)
    (d1 d2 : pydict) :
  _parse_event w e1 = Ret (PDict d1) ->
  _parse_event w e2 = Ret (PDict d2) ->
  dict_get d1 (u "__parse_error__") = dict_get d2 (u "__parse_error__") ->
  dict_get d1 (u "prompt") = dict_get d2 (u "prompt") ->
  lambda_handler w e1 = lambda_handler w e2.
Proof.
  intros H1 H2 Hmark Hprompt.
  unfold lambda_handler. rewrite H1, H2, !bind_eval_ret.
  cbn [py_get py_get_default py_getitem].
  unfold dict_get_default. rewrite Hmark, Hprompt. reflexivity.
Qed.

(** The knobs the source leaves commented out change nothing. *)
Lemma only_prompt_and_marker_read_witness :
  lambda_handler (Double.world true)
    (PDict [(u "seed", PInt 7); (u "prompt", PStr (u "a red fox"));
            (u "negative_prompt", PStr (u "blurry"))])
  = lambda_handler (Double.world true) Double.fox.
Proof.
  apply (only_prompt_and_marker_read (Double.world true)
           (PDict [(u "seed", PInt 7); (u "prompt", PStr (u "a red fox"));
                   (u "negative_prompt", PStr (u "blurry"))])
           Double.fox
           [(u "seed", PInt 7); (u "prompt", PStr (u "a red fox"));
            (u "negative_prompt", PStr (u "blurry"))]
           [(u "prompt", PStr (u "a red fox"))]);
    reflexivity.
Defined.

(** X14: [_parse_event] returns a mapping or what [json.loads] returned,
    and raises only what [json.loads] raised: a payload that is not a
    mapping is always the unchecked result of parsing a string body. *)
Theorem parse_event_results (w : World) (event : pyval) :
  match _parse_event w event with
  | Ret v => is_dict v = true \/ exists s, json_loads w s = Loaded v
  | Raise e => exists s, json_loads w s = LoadsRaised e
  end.
Proof.
  unfold _parse_event.
  destruct event as [| | | | | |ev]; try (left; reflexivity).
  destruct (dict_mem ev (u "body")); [|left; reflexivity].
  destruct (truthy (dict_get_default ev (u "isBase64Encoded") PNone)
            && is_str (dict_get_default ev (u "body") PNone)).
  - destruct (py_b64decode w (dict_get_default ev (u "body") PNone))
      as [raw|]; [|left; reflexivity].
    destruct (decode_utf8 w raw) as [s|]; [|left; reflexivity].
    destruct (json_loads w s) eqn:E; eauto.
  - destruct (dict_get_default ev (u "body") PNone) as [| | | |s| |];
      try (left; reflexivity).
    destruct (json_loads w s) eqn:E; eauto.
Qed.

(* ------------------------------------------------------------------ *)
(** ** Where the handler always answers *)

Lemma truthy_lookup (d : pydict) (k : pystr) :
  truthy (dict_get_default d k PNone) = true ->
  exists v, dict_get d k = Some v.
Proof.
  unfold dict_get_default. destruct (dict_get d k) as [v|]; [eauto|].
  discriminate.
Qed.

Lemma finish_reported_typed (v : pyval) :
  sequence_or_falsy v = true -> exists b, finish_reported v = Ret b.
Proof.
  unfold finish_reported.
  destruct v as [| [|] | z | f | [|c s] | [|x l] | [|kv d]];
    cbn; try discriminate; eauto.
  - destruct (Z.eqb z 0); cbn; [eauto | discriminate].
  - destruct f as [| neg | neg mant ex]; cbn; try discriminate.
    destruct (N.eqb mant 0); cbn; [eauto | discriminate].
Qed.

Lemma seed_index_typed (v : pyval) :
  sequence_or_falsy v = true ->
  exists seed, py_index0 (py_or v (PList [PNone])) = Ret seed.
Proof.
  unfold py_or.
  destruct v as [| [|] | z | f | [|c s] | [|x l] | [|kv d]];
    cbn; try discriminate; eauto.
  - destruct (Z.eqb z 0); cbn; [eauto | discriminate].
  - destruct f as [| neg | neg mant ex]; cbn; try discriminate.
    destruct (N.eqb mant 0); cbn; [eauto | discriminate].
Qed.

(** X15: the handler returns a response, and raises nothing, whenever the
    payload is a mapping whose ['prompt'] is a string or falsy and every
    payload the model can return is a mapping whose ['finish_reasons'] and
    ['seeds'] are lists, strings or falsy; whatever else the services
    do. *)
Theorem typed_inputs_are_answered (w : World) (event : pyval) (d : pydict) :
  _parse_event w event = Ret (PDict d) ->
  is_str (dict_get_default d (u "prompt") PNone)
  || negb (truthy (dict_get_default d (u "prompt") PNone)) = true ->
  (forall request resp data,
      invoke_model w (MODEL_ID w) (u "application/json")
        (u "application/json") request = Some resp ->
      read_response w resp = Some data ->
      reply_well_typed data) ->
  exists r, result (lambda_handler w event) = Ret r.
Proof.
  intros Hparse Hprompt Hmodel.
  unfold lambda_handler. rewrite Hparse, bind_eval_ret.
  cbn [py_get py_get_default py_getitem]. rewrite bind_eval_ret.
  destruct (truthy (dict_get_default d (u "__parse_error__") PNone)) eqn:Hm.
  { destruct (truthy_lookup _ _ Hm) as (v & ->).
    rewrite bind_eval_ret. eexists. reflexivity. }
  rewrite bind_eval_ret.
  assert (Hstrip : exists p,
             py_strip (py_or (dict_get_default d (u "prompt") PNone)
                         (PStr [])) = Ret p).
  { unfold py_or.
    destruct (truthy (dict_get_default d (u "prompt") PNone)) eqn:Ht.
    - rewrite orb_false_r in Hprompt.
      destruct (dict_get_default d (u "prompt") PNone);
        try discriminate. cbn. eauto.
    - cbn. eauto. }
  destruct Hstrip as (p & ->). rewrite bind_eval_ret.
  destruct (truthy (PStr p)); cbn [negb]; [|eexists; reflexivity].
  destruct (len p >? 800)%Z; [eexists; reflexivity|].
  rewrite bind_perform. cbn [result snd].
  destruct (invoke_model w (MODEL_ID w) (u "application/json")
              (u "application/json") (model_request w p)) as [resp|] eqn:Hi;
    [|eexists; reflexivity].
  destruct (read_response w resp) as [data|] eqn:Hr; [|eexists; reflexivity].
  destruct (Hmodel _ _ _ Hi Hr) as (fields & -> & Hfin & Hseeds).
  cbn [py_get py_get_default]. rewrite bind_eval_ret.
  destruct (finish_reported_typed _ Hfin) as (filtered & ->).
  rewrite bind_eval_ret.
  destruct filtered; [eexists; reflexivity|].
  rewrite bind_eval_ret.
  destruct (truthy (py_or (dict_get_default fields (u "images") PNone)
                      (PList []))); cbn [negb]; [|eexists; reflexivity].
  destruct (decode_first_image w
              (py_or (dict_get_default fields (u "images") PNone)
                 (PList []))) as [img_bytes|]; [|eexists; reflexivity].
  rewrite bind_perform. cbn [result snd].
  destruct (put_object w (OUTPUT_BUCKET w) (object_key w) img_bytes
              (u "image/png")); cbn [negb]; [|eexists; reflexivity].
  rewrite bind_perform. cbn [result snd].
  destruct (generate_presigned_url w (u "get_object") (OUTPUT_BUCKET w)
              (object_key w) 3600) as [url|]; [|eexists; reflexivity].
  rewrite bind_eval_ret.
  destruct (seed_index_typed _ Hseeds) as (seed & ->).
  rewrite bind_eval_ret. eexists. reflexivity.
Qed.

Lemma typed_inputs_are_answered_witness :
  exists r,
    result (lambda_handler
              (Faulty.world Faulty.readable (Some (PDict Double.fox_reply))
                 true true) Double.fox)
    = Ret r.
Proof.
  apply (typed_inputs_are_answered
           (Faulty.world Faulty.readable (Some (PDict Double.fox_reply))
              true true) Double.fox [(u "prompt", PStr (u "a red fox"))]).
  - reflexivity.
  - reflexivity.
  - intros request resp data [= <-] [= <-].
    exists Double.fox_reply. repeat split.
Defined.

(** X16: in a payload that is a mapping without a truthy
    ['__parse_error__'] field, a string prompt of at most 800 characters,
    blanks included, that has a character other than whitespace is
    accepted: the handler's first outbound call is the model invocation
    with the trimmed prompt. *)
Theorem short_prompt_accepted (w : World) (event : pyval) (d : pydict)
    (given : pystr) :
  normalises_to w event d ->
  dict_get d (u "prompt") = Some (PStr given) ->
  forallb is_space given = false ->
  (List.length given <= 800)%nat ->
  exists rest,
    calls (lambda_handler w event) =
      InvokeModel (MODEL_ID w) (u "application/json")
        (u "application/json") (model_request w (strip given)) :: rest.
Proof.
  intros (Hparse & Hmark) Hgiven Hblank Hsize.
  remember (strip given) as p eqn:Hstrip. symmetry in Hstrip.
  assert (Hne : p <> []).
  { intros ->. apply strip_empty_iff in Hstrip. congruence. }
  assert (Hlen : (len p <= 800)%Z).
  { pose proof (strip_length given). rewrite Hstrip in H. unfold len. lia. }
  validate Hparse Hmark Hgiven Hstrip Hne Hlen.
  rewrite bind_perform. eexists. reflexivity.
Qed.

Lemma short_prompt_accepted_witness :
  exists rest,
    calls (lambda_handler (Double.world true)
             (PDict [(u "prompt", PStr (u "  a red fox "))])) =
      InvokeModel (u "stability.sd3-5-large-v1:0") (u "application/json")
        (u "application/json")
        (model_request (Double.world true) (strip (u "  a red fox ")))
      :: rest.
Proof.
  apply (short_prompt_accepted (Double.world true)
           (PDict [(u "prompt", PStr (u "  a red fox "))])
           [(u "prompt", PStr (u "  a red fox "))] (u "  a red fox ")).
  - split; reflexivity.
  - reflexivity.
  - reflexivity.
  - vm_compute. repeat constructor.
Defined.

(** X17: when ['seeds'] is truthy and neither a list nor a string (a
    number, [true], a non-empty mapping), the subscript in the final
    response raises after the object has been written and presigned: the
    caller gets an exception, the object stays in the bucket. *)
Theorem mistyped_seeds_raise_after_publishing (w : World) (event : pyval)
    (p : pystr) (data : pydict) (img_bytes : bytes) (url : pystr)
    (seeds : pyval) :
  accepted w event p ->
  model_replies w p data ->
  no_finish_reason data ->
  first_image w data img_bytes ->
  put_object w (OUTPUT_BUCKET w) (object_key w) img_bytes (u "image/png")
  = true ->
  generate_presigned_url w (u "get_object") (OUTPUT_BUCKET w) (object_key w)
    3600 = Some url ->
  dict_get data (u "seeds") = Some seeds ->
  sequence_or_falsy seeds = false ->
  lambda_handler w event =
    ([InvokeModel (MODEL_ID w) (u "application/json") (u "application/json")
        (model_request w p);
      PutObject (OUTPUT_BUCKET w) (object_key w) img_bytes (u "image/png");
      GeneratePresignedUrl (u "get_object") (OUTPUT_BUCKET w) (object_key w)
        3600],
     Raise (if is_dict seeds then KeyError else TypeError)).
Proof.
  intros (d & (Hparse & Hmark) & given & Hgiven & Hstrip & Hne & Hlen)
         (resp & raw & Hinvoke & Hread & Hloads) Hclear
         (img & more & Himages & Hdecode) Hput Hurl Hseeds Htyped.
  validate Hparse Hmark Hgiven Hstrip Hne Hlen.
  model_call Hinvoke Hread Hloads.
  decode_image Hclear Himages Hdecode.
  apply bind_perform_run. rewrite Hput. cbn [negb].
  apply bind_perform_run. rewrite Hurl.
  cbn [py_get py_get_default].
  rewrite bind_eval_ret, (dict_get_default_some _ _ _ _ Hseeds).
  unfold py_or.
  destruct seeds as [| [|] | z | f | s | l | [|kv fields]];
    cbn in Htyped; try discriminate; cbn [truthy is_dict py_index0];
    try reflexivity.
  - destruct (Z.eqb z 0); [discriminate | reflexivity].
  - destruct f as [| neg | neg mant ex]; try reflexivity.
    cbn in Htyped |- *. destruct (N.eqb mant 0); [discriminate | reflexivity].
Qed.

Lemma mistyped_seeds_raise_after_publishing_witness :
  lambda_handler
    (Faulty.world Faulty.readable
       (Some (PDict [(u "seeds", PInt 7);
                     (u "images", PList [PStr (u "aGk=")])])) true true)
    Double.fox =
    ([InvokeModel (u "stability.sd3-5-large-v1:0") (u "application/json")
        (u "application/json")
        (model_request
           (Faulty.world Faulty.readable
              (Some (PDict [(u "seeds", PInt 7);
                            (u "images", PList [PStr (u "aGk=")])]))
              true true) (u "a red fox"));
      PutObject (u "poster-bucket")
        (u "sd35/poster_20261104093005_3f2a9c01d4.png")
        (Double.ascii_bytes "hi") (u "image/png");
      GeneratePresignedUrl (u "get_object") (u "poster-bucket")
        (u "sd35/poster_20261104093005_3f2a9c01d4.png") 3600],
     Raise TypeError).
Proof.
  apply (mistyped_seeds_raise_after_publishing
           (Faulty.world Faulty.readable
              (Some (PDict [(u "seeds", PInt 7);
                            (u "images", PList [PStr (u "aGk=")])]))
              true true)
           Double.fox (u "a red fox")
           [(u "seeds", PInt 7); (u "images", PList [PStr (u "aGk=")])]
           (Double.ascii_bytes "hi")
           (u "https://poster-bucket.s3.amazonaws.com/"
              ++ u "sd35/poster_20261104093005_3f2a9c01d4.png")
           (PInt 7)).
  - apply faulty_fox_accepted.
  - apply faulty_fox_replied.
  - left. reflexivity.
  - exists (u "aGk="), []. split; reflexivity.
  - reflexivity.
  - reflexivity.
  - reflexivity.
  - reflexivity.
Defined.

(* ------------------------------------------------------------------ *)
(** ** When two keys collide *)

Lemma app_inj_length {A : Type} (a a' b b' : list A) :
  List.length a = List.length a' ->
  a ++ b = a' ++ b' -> a = a' /\ b = b'.
Proof.
  revert a'. induction a as [|x a IH]; intros [|x' a'] Hlen Happ;
    try discriminate; simpl in *.
  - split; [reflexivity | exact Happ].
  - injection Happ as -> Happ. injection Hlen as Hlen.
    destruct (IH a' Hlen Happ) as [-> ->]. split; reflexivity.
Qed.

(** The digits of [n] split into the high ones and the low ones. *)
Lemma fixed_digits_app base chr (high low : nat) (n : N) :
  (0 < base)%N ->
  fixed_digits base chr (high + low) n =
  fixed_digits base chr high (n / base ^ N.of_nat low)
  ++ fixed_digits base chr low n.
Proof.
  intros Hbase. revert n. induction low as [|low IH]; intros n.
  - rewrite Nat.add_0_r. simpl. rewrite N.div_1_r, app_nil_r. reflexivity.
  - rewrite Nat.add_succ_r. cbn [fixed_digits].
    rewrite IH, <- app_assoc. f_equal.
    rewrite Nat2N.inj_succ, N.pow_succ_r', N.Div0.div_div.
    reflexivity.
Qed.

(** Numbers that fit the width are told apart by their digits. *)
Lemma fixed_digits_inj base chr (width : nat) (n1 n2 : N) :
  (0 < base)%N ->
  (forall d1 d2, (d1 < base)%N -> (d2 < base)%N ->
                 chr d1 = chr d2 -> d1 = d2) ->
  (n1 < base ^ N.of_nat width)%N ->
  (n2 < base ^ N.of_nat width)%N ->
  fixed_digits base chr width n1 = fixed_digits base chr width n2 ->
  n1 = n2.
Proof.
  intros Hbase Hchr. revert n1 n2.
  induction width as [|width IH]; intros n1 n2 H1 H2 Heq.
  - simpl in H1, H2. lia.
  - rewrite Nat2N.inj_succ, N.pow_succ_r' in H1, H2.
    cbn [fixed_digits] in Heq. apply app_inj_tail in Heq as [Hhigh Hlow].
    assert (Hq : (n1 / base = n2 / base)%N).
    { apply IH; [| |exact Hhigh]; apply N.Div0.div_lt_upper_bound; lia. }
    assert (Hr : (n1 mod base = n2 mod base)%N).
    { apply Hchr; [| |exact Hlow]; apply N.mod_lt; lia. }
    rewrite (N.div_mod n1 base), (N.div_mod n2 base) by lia.
    rewrite Hq, Hr. reflexivity.
Qed.

Lemma digit_char_inj d1 d2 :
  (d1 < 10)%N -> (d2 < 10)%N -> digit_char d1 = digit_char d2 -> d1 = d2.
Proof. unfold digit_char. lia. Qed.

Lemma hex_char_inj d1 d2 :
  (d1 < 16)%N -> (d2 < 16)%N -> hex_char d1 = hex_char d2 -> d1 = d2.
Proof.
  unfold hex_char. intros H1 H2.
  destruct (N.ltb_spec d1 10), (N.ltb_spec d2 10); lia.
Qed.

(** The identifier is the top 40 bits of the UUID, in hexadecimal. *)
Lemma uuid_prefix_top_bits (n : N) :
  firstn 10 (uuid_hex n) = fixed_digits 16 hex_char 10 (n / 2 ^ 88).
Proof.
  unfold uuid_hex. change 32%nat with (10 + 22)%nat.
  rewrite (fixed_digits_app 16 hex_char 10 22 n) by reflexivity.
  rewrite firstn_app, fixed_digits_length, Nat.sub_diag, firstn_O, app_nil_r.
  rewrite firstn_all2 by (rewrite fixed_digits_length; lia).
  reflexivity.
Qed.

(** In its range, a clock reading is told by its stamp. *)
Lemma strftime_YmdHMS_inj (t1 t2 : datetime) :
  clock_in_range t1 -> clock_in_range t2 ->
  strftime_YmdHMS t1 = strftime_YmdHMS t2 -> t1 = t2.
Proof.
  intros (Hy1 & Hm1 & Hd1 & HH1 & HM1 & HS1) (Hy2 & Hm2 & Hd2 & HH2 & HM2 & HS2).
  unfold strftime_YmdHMS. intros H.
  repeat (apply app_inj_length in H as [?H H];
          [|rewrite !fixed_digits_length; reflexivity]).
  destruct t1 as [y1 m1 d1 h1 mi1 s1], t2 as [y2 m2 d2 h2 mi2 s2].
  cbn [year month day hour minute second] in *.
  repeat match goal with
         | E : fixed_digits 10 digit_char _ _ = fixed_digits 10 digit_char _ _
           |- _ =>
             apply (fixed_digits_inj 10 digit_char) in E;
             [ | reflexivity | exact digit_char_inj
               | cbn; lia | cbn; lia ]
         end.
  subst. reflexivity.
Qed.

(** X18: two invocations with the same key prefix, whose clocks read
    within the years 1000 to 9999, generate the same storage key exactly
    when their clocks read the same second and their UUIDs agree on the
    top 40 bits; the other 88 bits of the UUID do not enter the key. *)
Theorem key_collision (w1 w2 : World) :
  KEY_PREFIX w1 = KEY_PREFIX w2 ->
  clock_in_range (utcnow w1) ->
  clock_in_range (utcnow w2) ->
  (uuid4 w1 < 2 ^ 128)%N ->
  (uuid4 w2 < 2 ^ 128)%N ->
  object_key w1 = object_key w2
  <-> utcnow w1 = utcnow w2 /\ (uuid4 w1 / 2 ^ 88 = uuid4 w2 / 2 ^ 88)%N.
Proof.
  intros Hprefix Hc1 Hc2 Hu1 Hu2. unfold object_key.
  rewrite !uuid_prefix_top_bits, Hprefix. split.
  - intros H. do 2 apply app_inv_head in H.
    apply app_inj_length in H as [Hts H];
      [|rewrite !(proj1 (strftime_YmdHMS_form _)); reflexivity].
    apply app_inv_head in H. apply app_inv_tail in H.
    split; [now apply strftime_YmdHMS_inj|].
    apply (fixed_digits_inj 16 hex_char 10);
      [reflexivity | exact hex_char_inj | | | exact H];
      apply N.Div0.div_lt_upper_bound; assumption.
  - intros [-> ->]. reflexivity.
Qed.

(** Two UUIDs that differ in their last bit, in the same second. *)
Lemma key_collision_witness :
  object_key (Double.world true)
  = object_key
      (with_uuid4 (Double.world true) 0x3f2a9c01d4e84b7a9c3e5f6a7b8c9d0f)
  <-> utcnow (Double.world true)
      = utcnow (with_uuid4 (Double.world true)
                  0x3f2a9c01d4e84b7a9c3e5f6a7b8c9d0f)
      /\ (uuid4 (Double.world true) / 2 ^ 88
          = uuid4 (with_uuid4 (Double.world true)
                     0x3f2a9c01d4e84b7a9c3e5f6a7b8c9d0f) / 2 ^ 88)%N.
Proof.
  apply (key_collision (Double.world true)
           (with_uuid4 (Double.world true)
              0x3f2a9c01d4e84b7a9c3e5f6a7b8c9d0f)).
  - reflexivity.
  - vm_compute. repeat split; discriminate.
  - vm_compute. repeat split; discriminate.
  - reflexivity.
  - reflexivity.
Defined.

(* ------------------------------------------------------------------ *)
(** ** Prompts that cannot be used *)

(** X19: an envelope that is not a mapping, and a payload without error
    marker whose ['prompt'] is missing, null or otherwise falsy, or is a
    string of whitespace only, get a response of status 400 whose body is
    the JSON text of the error "Missing 'prompt'", with no outbound
    call. *)
Theorem unusable_prompt_rejected (w : World) (event : pyval) :
  is_dict event = false
  \/ (exists d,
        normalises_to w event d
        /\ (truthy (dict_get_default d (u "prompt") PNone) = false
            \/ exists s, dict_get d (u "prompt") = Some (PStr s)
                         /\ forallb is_space s = true)) ->
  exists r,
    lambda_handler w event = ([], Ret r)
    /\ statusCode r = 400%Z
    /\ body r =
       json_dumps w (PDict [(u "error", PStr (u "Missing 'prompt'"))]).
Proof.
  intros H.
  exists (_resp w 400 [(u "error", PStr (u "Missing 'prompt'"))]).
  split; [|split; reflexivity].
  destruct H as [Hevent | (d & Hnorm & Hprompt)].
  - now apply non_mapping_envelope_rejected.
  - now apply missing_prompt_rejected with (d := d).
Qed.

(** A list as envelope, and a prompt of a tab and a no-break space. *)
Lemma unusable_prompt_rejected_witness :
  (exists r,
     lambda_handler (Double.world true) (PList [PStr (u "a red fox")])
     = ([], Ret r)
     /\ statusCode r = 400%Z
     /\ body r =
        json_dumps (Double.world true)
          (PDict [(u "error", PStr (u "Missing 'prompt'"))]))
  /\ (exists r,
        lambda_handler (Double.world true)
          (PDict [(u "prompt", PStr [9%N; 160%N])]) = ([], Ret r)
        /\ statusCode r = 400%Z
        /\ body r =
           json_dumps (Double.world true)
             (PDict [(u "error", PStr (u "Missing 'prompt'"))])).
Proof.
  split.
  - apply (unusable_prompt_rejected (Double.world true)
             (PList [PStr (u "a red fox")])).
    left. reflexivity.
  - apply (unusable_prompt_rejected (Double.world true)
             (PDict [(u "prompt", PStr [9%N; 160%N])])).
    right. exists [(u "prompt", PStr [9%N; 160%N])].
    split; [split; reflexivity|].
    right. exists [9%N; 160%N]. split; reflexivity.
Defined.

(* ------------------------------------------------------------------ *)
(** ** The error marker, both ways *)

(** C9, as the code has it.  The handler returns, before any outbound
    call, a response of status 400 whose body is the JSON text of
    [{"error": m}] if normalisation failed with the message [m], and
    also if the request mapping itself carries a truthy
    ['__parse_error__'] field [m]: the marker is an ordinary field.
    Conversely, a response of status 400 returned before any outbound
    call, whose body is not one of the two messages of prompt
    validation, is returned only in these two cases. *)
Theorem marker_short_circuit (w : World) (event : pyval) (text : pystr) :
  ((exists msg,
       normalisation_error w event = Some msg
       /\ text = json_dumps w (PDict [(u "error", PStr (u msg))]))
   \/ (normalisation_error w event = None
       /\ exists d v,
            _parse_event w event = Ret (PDict d)
            /\ dict_get d (u "__parse_error__") = Some v
            /\ truthy v = true
            /\ text = json_dumps w (PDict [(u "error", v)])) ->
   exists r,
     lambda_handler w event = ([], Ret r)
     /\ statusCode r = 400%Z /\ body r = text)
  /\ (text <>
      json_dumps w (PDict [(u "error", PStr (u "Missing 'prompt'"))]) ->
      text <> json_dumps w
                (PDict [(u "error",
                         PStr (u "Prompt too long (max 800 chars)"))]) ->
      (exists r,
          lambda_handler w event = ([], Ret r)
          /\ statusCode r = 400%Z /\ body r = text) ->
      (exists msg,
          normalisation_error w event = Some msg
          /\ text = json_dumps w (PDict [(u "error", PStr (u msg))]))
      \/ (normalisation_error w event = None
          /\ exists d v,
               _parse_event w event = Ret (PDict d)
               /\ dict_get d (u "__parse_error__") = Some v
               /\ truthy v = true
               /\ text = json_dumps w (PDict [(u "error", v)]))).
Proof.
  split.
  - intros [(msg & Herr & ->) | (_ & d & v & Hparse & Hget & Htrue & ->)].
    + apply normalisation_error_marker in Herr as [Hparse Hmsg].
      exists (_resp w 400 [(u "error", PStr (u msg))]).
      split; [|split; reflexivity].
      now apply handler_parse_error.
    + exists (_resp w 400 [(u "error", v)]).
      split; [|split; reflexivity].
      now apply handler_marker with (d := d).
  - intros Hmissing Hlong (r & Hrun & Hcode & Hbody).
    unfold lambda_handler in Hrun.
    destruct (_parse_event w event) as [payload|e] eqn:Hparse;
      [rewrite bind_eval_ret in Hrun
      | rewrite bind_eval_raise in Hrun; discriminate].
    destruct payload as [| | | | | |d]; cbn [py_get py_get_default] in Hrun;
      try (rewrite bind_eval_raise in Hrun; discriminate).
    rewrite bind_eval_ret in Hrun.
    destruct (truthy (dict_get_default d (u "__parse_error__") PNone)) eqn:Hm.
    + destruct (truthy_lookup _ _ Hm) as (v & Hv).
      rewrite (dict_get_default_some _ _ _ _ Hv) in Hm.
      cbn [py_getitem] in Hrun. rewrite Hv, bind_eval_ret in Hrun.
      injection Hrun as <-. cbn [body _resp] in Hbody.
      destruct (normalisation_error w event) as [msg|] eqn:Herr.
      * left. exists msg. split; [reflexivity|].
        apply normalisation_error_marker in Herr as [Hmarker _].
        rewrite Hparse in Hmarker. injection Hmarker as ->.
        injection Hv as <-. symmetry. exact Hbody.
      * right. split; [reflexivity|]. exists d, v.
        repeat split; try assumption. symmetry. exact Hbody.
    + rewrite bind_eval_ret in Hrun.
      destruct (py_strip (py_or (dict_get_default d (u "prompt") PNone)
                            (PStr []))) as [p|e];
        [rewrite bind_eval_ret in Hrun
        | rewrite bind_eval_raise in Hrun; discriminate].
      destruct (truthy (PStr p)); cbn [negb] in Hrun.
      * destruct (len p >? 800)%Z.
        -- injection Hrun as <-. cbn [body _resp] in Hbody.
           exfalso. apply Hlong. symmetry. exact Hbody.
        -- rewrite bind_perform in Hrun. discriminate.
      * injection Hrun as <-. cbn [body _resp] in Hbody.
        exfalso. apply Hmissing. symmetry. exact Hbody.
Qed.

(** A body that is a number fails normalisation; a direct invocation
    with a ['__parse_error__'] field of its own does not, and is answered
    the same way; and its answer is traced back to that field. *)
Lemma marker_short_circuit_witness :
  (exists r,
     lambda_handler (Double.world true) (PDict [(u "body", PInt 7)])
     = ([], Ret r)
     /\ statusCode r = 400%Z
     /\ body r =
        json_dumps (Double.world true)
          (PDict [(u "error", PStr (u "Unsupported body format"))]))
  /\ (exists r,
        lambda_handler (Double.world true)
          (PDict [(u "__parse_error__", PStr (u "boom"));
                  (u "prompt", PStr (u "a red fox"))]) = ([], Ret r)
        /\ statusCode r = 400%Z
        /\ body r =
           json_dumps (Double.world true)
             (PDict [(u "error", PStr (u "boom"))]))
  /\ ((exists msg,
         normalisation_error (Double.world true)
           (PDict [(u "__parse_error__", PStr (u "boom"));
                   (u "prompt", PStr (u "a red fox"))]) = Some msg
         /\ json_dumps (Double.world true)
              (PDict [(u "error", PStr (u "boom"))])
            = json_dumps (Double.world true)
                (PDict [(u "error", PStr (u msg))]))
      \/ (normalisation_error (Double.world true)
            (PDict [(u "__parse_error__", PStr (u "boom"));
                    (u "prompt", PStr (u "a red fox"))]) = None
          /\ exists d v,
               _parse_event (Double.world true)
                 (PDict [(u "__parse_error__", PStr (u "boom"));
                         (u "prompt", PStr (u "a red fox"))])
               = Ret (PDict d)
               /\ dict_get d (u "__parse_error__") = Some v
               /\ truthy v = true
               /\ json_dumps (Double.world true)
                    (PDict [(u "error", PStr (u "boom"))])
                  = json_dumps (Double.world true) (PDict [(u "error", v)]))).
Proof.
  split; [|split].
  - apply (proj1 (marker_short_circuit (Double.world true)
                    (PDict [(u "body", PInt 7)])
                    (json_dumps (Double.world true)
                       (PDict [(u "error",
                                PStr (u "Unsupported body format"))])))).
    left. exists "Unsupported body format"%string. split; reflexivity.
  - apply (proj1 (marker_short_circuit (Double.world true)
                    (PDict [(u "__parse_error__", PStr (u "boom"));
                            (u "prompt", PStr (u "a red fox"))])
                    (json_dumps (Double.world true)
                       (PDict [(u "error", PStr (u "boom"))])))).
    right. split; [reflexivity|].
    exists [(u "__parse_error__", PStr (u "boom"));
            (u "prompt", PStr (u "a red fox"))], (PStr (u "boom")).
    repeat split.
  - apply (proj2 (marker_short_circuit (Double.world true)
                    (PDict [(u "__parse_error__", PStr (u "boom"));
                            (u "prompt", PStr (u "a red fox"))])
                    (json_dumps (Double.world true)
                       (PDict [(u "error", PStr (u "boom"))])))).
    + vm_compute. discriminate.
    + vm_compute. discriminate.
    + eexists. repeat split.
Defined.
